(** * Synthetic-data dashboard: generator and filter pipeline

    A shallow embedding of the two pieces of reproducible logic of
    [src/app.py]: the seeded synthetic data generator [generate_data]
    (lines 47-61) and the boolean-mask filter that computes [filtered_df]
    (lines 91-92).

    Conventions of the embedding.
    - A pandas [Timestamp] (dtype datetime64[ns]) is a [Z]: nanoseconds since
      1970-01-01T00:00.  A [datetime.date] is a [Z]: whole days since
      1970-01-01, so that Python's ordering of dates is [Z.le].
    - A DataFrame is the list of its rows, each row carrying its index label.
    - float64 arithmetic is an interface ([Float64]); the generator is written
      once over that interface and its theorems hold for every instance.
      [binary64] is the instance on the processor's IEEE 754 doubles, with
      the sine supplied by the caller.
    - numpy's global legacy generator is an interface ([MTRand]) threaded as
      explicit state: seeding, one standard-normal draw, one bounded integer
      draw.  Python exceptions are [None]. *)

From Stdlib Require Import ZArith List Reals Lra Lia QArith Qreals.
From Stdlib Require Import PrimFloat FloatOps Uint63.
From stdpp Require Import gmap strings list.

(** ** Calendar arithmetic, after CPython's [datetime] module *)

Module Calendar.
Local Open Scope Z_scope.

(** [_is_leap(year)] *)
Definition is_leap (year : Z) : bool :=
  (year mod 4 =? 0) && (negb (year mod 100 =? 0) || (year mod 400 =? 0)).

(** [_days_before_year(year)]: days before January 1st of [year]. *)
Definition days_before_year (year : Z) : Z :=
  let y := year - 1 in y * 365 + y / 4 - y / 100 + y / 400.

(** [_DAYS_BEFORE_MONTH]: days before the first of the month in a common
    year (index 0 is CPython's placeholder). *)
Definition DAYS_BEFORE_MONTH : list Z :=
  [-1; 0; 31; 59; 90; 120; 151; 181; 212; 243; 273; 304; 334].

(** [_days_before_month(year, month)] *)
Definition days_before_month (year month : Z) : Z :=
  nth (Z.to_nat month) DAYS_BEFORE_MONTH 0
  + (if (2 <? month) && is_leap year then 1 else 0).

(** [_ymd2ord(year, month, day)]: proleptic Gregorian ordinal, 0001-01-01
    being day 1. *)
Definition ymd2ord (year month day : Z) : Z :=
  days_before_year year + days_before_month year month + day.

(** [date(1970, 1, 1).toordinal()] *)
Definition EPOCH_ORDINAL : Z := 719163.

(** A [datetime.date], as whole days since the epoch. *)
Definition date_of (year month day : Z) : Z :=
  ymd2ord year month day - EPOCH_ORDINAL.

Definition NS_PER_DAY : Z := 86400 * 1000000000.

(** [pd.Timestamp('YYYY-MM-DD')]: midnight of that day, in nanoseconds. *)
Definition Timestamp (year month day : Z) : Z :=
  date_of year month day * NS_PER_DAY.

(** [Series.dt.date] on one element: the calendar day of a timestamp. *)
Definition dt_date (ts : Z) : Z := ts / NS_PER_DAY.

(** [(b - a).days] for two timestamps: [Timedelta.days] rounds down. *)
Definition delta_days (a b : Z) : Z := (b - a) / NS_PER_DAY.

(** [pd.date_range(start, end, freq='D')]: [start], [start + 1 day], ...
    while not after [end]; empty when [end] is before [start]. *)
Definition date_range (start stop : Z) : list Z :=
  map (fun k : nat => start + Z.of_nat k * NS_PER_DAY)
      (seq 0 (Z.to_nat (delta_days start stop + 1))).
End Calendar.
Export Calendar.

(** ** The data model: one row per observation *)

Section Frame.
Context {F : Type}.

(** One row of the DataFrame built at lines 55-60.  Columns, in source
    order: '日期' is [date], '数值A' is [valueA], '数值B' is [valueB],
    '类别' is [category]; [idx] is the row's label in the index. *)
Record Row : Type := mkRow {
  idx : nat;
  date : Z;
  valueA : F;
  valueB : F;
  category : string
}.

(** A DataFrame: its rows, in order. *)
Local Abbreviation DataFrame := (list Row).

(** *** Element-wise Series operations used by the filter *)

(** [series >= d] on a Series of dates. *)
Definition series_ge (s : list Z) (d : Z) : list bool :=
  map (fun x => (d <=? x)%Z) s.

(** [series <= d] on a Series of dates. *)
Definition series_le (s : list Z) (d : Z) : list bool :=
  map (fun x => (x <=? d)%Z) s.

(** [series.isin(values)] on a Series of strings. *)
Definition isin (s : list string) (values : list string) : list bool :=
  map (fun c => existsb (String.eqb c) values) s.

(** [m1 & m2] on two boolean Series over the same index. *)
Definition series_and (m1 m2 : list bool) : list bool :=
  zip_with andb m1 m2.

(** [df[mask]] with a boolean Series over the frame's own index: the rows
    at the positions where the mask holds, labels and order kept, in a new
    frame. *)
Definition getitem_mask (df : DataFrame) (mask : list bool) : DataFrame :=
  map fst (List.filter snd (zip df mask)).

(** [df['日期'].dt.date] *)
Definition col_dt_date (df : DataFrame) : list Z :=
  map (fun r => dt_date (date r)) df.

(** [df['类别']] *)
Definition col_category (df : DataFrame) : list string := map category df.

(** Lines 91-92.  [date_range] is the tuple returned by the date picker
    and [selected] the list returned by the multiselect (the script's
    variable [category]).  Subscripting the tuple out of range raises
    [IndexError].
<<
    mask = (df['日期'].dt.date >= date_range[0]) & (df['日期'].dt.date <= date_range[1])
    filtered_df = df[mask & df['类别'].isin(category)]
>> *)
Definition filtered_df (df : DataFrame) (date_range : list Z)
    (selected : list string) : option DataFrame :=
  lo ← date_range !! 0%nat;
  hi ← date_range !! 1%nat;
  let mask := series_and (series_ge (col_dt_date df) lo)
                         (series_le (col_dt_date df) hi) in
  Some (getitem_mask df (series_and mask (isin (col_category df) selected))).

(** The row predicate the masks compute, position by position. *)
Definition keeps (lo hi : Z) (selected : list string) (r : Row) : bool :=
  ((lo <=? dt_date (date r))%Z && (dt_date (date r) <=? hi)%Z)
  && existsb (String.eqb (category r)) selected.
End Frame.
Arguments Row : clear implicits.
Abbreviation DataFrame F := (list (Row F)).

(** ** Interfaces to the numeric libraries *)

(** float64 arithmetic as the generator uses it. *)
Class Float64 (F : Type) : Type := {
  fadd : F → F → F;
  fsub : F → F → F;
  fmul : F → F → F;
  fdiv : F → F → F;
  fsin : F → F;                (* [np.sin] on one element *)
  fpi : F;                     (* [np.pi] *)
  of_int : Z → F;              (* conversion of a Python int *)
  of_decimal : Z → nat → F;    (* the literal [m / 10^e], as [0.8] is 8 / 10^1 *)
  feqb : F → F → bool          (* [==] *)
}.

(** numpy's legacy global generator ([np.random.*]), as explicit state. *)
Class MTRand (F St : Type) : Type := {
  (** the state [np.random.seed(s)] installs; it depends on [s] alone *)
  init_by_seed : Z → St;
  (** one standard-normal draw ([legacy_gauss]) *)
  legacy_gauss : St → F * St;
  (** one integer draw from [0 .. max] inclusive ([rk_interval]) *)
  rk_interval : Z → St → Z * St
}.

(** ** Computations that read and advance the generator, or raise *)

Definition M (St A : Type) : Type := St → option (A * St).

Definition retM {St A} (a : A) : M St A := λ s, Some (a, s).

Definition bindM {St A B} (c : M St A) (k : A → M St B) : M St B :=
  λ s, match c s with
       | Some (a, s') => k a s'
       | None => None
       end.

(** A pure step that may raise. *)
Definition liftM {St A} (o : option A) : M St A :=
  λ s, match o with Some a => Some (a, s) | None => None end.

Notation "x <~ c ;; k" := (bindM c (λ x, k))
  (at level 100, c at next level, right associativity).

(** [size] draws in sequence, first draw first. *)
Fixpoint draws {St A} (one : M St A) (size : nat) : M St (list A) :=
  match size with
  | O => retM []
  | S k => x <~ one ;; xs <~ draws one k ;; retM (x :: xs)
  end.

(** The state after [k] successive draws of a total step. *)
Fixpoint advance {St A} (step : St → A * St) (k : nat) (s : St) : St :=
  match k with
  | O => s
  | S k' => advance step k' (step s).2
  end.

(** The list and final state that [n] draws of a total step produce. *)
Fixpoint run_draws {St A} (step : St → A * St) (n : nat) (s : St)
    : list A * St :=
  match n with
  | O => ([], s)
  | S k => let (a, s1) := step s in
           let (l, s2) := run_draws step k s1 in (a :: l, s2)
  end.

Section Numpy.
Context {F : Type} {FO : Float64 F} {St : Type} {RNG : MTRand F St}.
Local Open Scope Z_scope.

(** [np.random.seed(seed)]: replaces the global state whatever it was;
    [ValueError] outside [0 .. 2^32 - 1]. *)
Definition np_random_seed (seed : Z) : M St unit :=
  λ _, if (0 <=? seed) && (seed <? 2 ^ 32)
       then Some (tt, init_by_seed seed) else None.

(** [legacy_normal]: [loc + scale * legacy_gauss()] *)
Definition legacy_normal (loc scale : F) : M St F :=
  λ s, let (z, s') := legacy_gauss s in Some (fadd loc (fmul scale z), s').

(** [np.random.normal(loc, scale, size)] *)
Definition normal (loc scale : F) (size : nat) : M St (list F) :=
  draws (legacy_normal loc scale) size.

(** [np.random.randint(low, high, size)]: an empty request returns the
    empty array before the bounds are looked at; otherwise [ValueError]
    when [low >= high], and each element is
    [low + rk_interval(high - 1 - low)]. *)
Definition randint (low high : Z) (size : nat) : M St (list Z) :=
  if (size =? 0)%nat then retM []
  else if high <=? low then λ _, None
  else draws (λ s, let (k, s') := rk_interval (high - 1 - low) s in
                   Some (low + k, s')) size.

(** [a[i]] for one integer index: negative indices count from the end,
    [IndexError] out of range. *)
Definition getitem {A} (a : list A) (i : Z) : option A :=
  if i <? 0
  then (if 0 <=? Z.of_nat (length a) + i
        then a !! Z.to_nat (Z.of_nat (length a) + i) else None)
  else a !! Z.to_nat i.

(** [np.random.choice(a, size)] (with replacement, uniform):
    [idx = randint(0, len(a), size)], then [a[idx]]; [ValueError] on an
    empty population when samples are requested. *)
Definition choice {A} (a : list A) (size : nat) : M St (list A) :=
  if (length a =? 0)%nat && (0 <? size)%nat then λ _, None
  else idx <~ randint 0 (Z.of_nat (length a)) size ;;
       liftM (mapM (getitem a) idx).

(** [np.linspace(start, stop, num)] with [endpoint=True]: the [arange]
    scaled by the step, shifted by [start], the last element overwritten
    with [stop]. *)
Definition linspace (start stop : F) (num : nat) : list F :=
  let div := Z.of_nat num - 1 in
  let delta := fsub stop start in
  let y := map (λ k : nat, of_int (Z.of_nat k)) (seq 0 num) in
  let y :=
    if 0 <? div then
      let step := fdiv delta (of_int div) in
      if feqb step (of_int 0)
      then map (λ v, fmul (fdiv v (of_int div)) delta) y
      else map (λ v, fmul v step) y
    else map (λ v, fmul v delta) y in
  let y := map (λ v, fadd v start) y in
  if (1 <? num)%nat then <[(num - 1)%nat := stop]> y else y.

(** [arr * c] and [arr + c] with a scalar. *)
Definition arr_muls (a : list F) (c : F) : list F := map (λ x, fmul x c) a.
Definition arr_adds (a : list F) (c : F) : list F := map (λ x, fadd x c) a.

(** [a + b] on one-dimensional arrays: equal lengths add element-wise, a
    length-one operand is broadcast, any other pair of shapes raises. *)
Definition arr_add (a b : list F) : option (list F) :=
  if (length a =? length b)%nat then Some (zip_with fadd a b)
  else match a, b with
       | [x], _ => Some (map (fadd x) b)
       | _, [y] => Some (map (λ x, fadd x y) a)
       | _, _ => None
       end.

(** Rows labelled [i], [i + 1], ... from four columns. *)
Fixpoint rows_from (i : nat) (dates : list Z) (a b : list F)
    (c : list string) : DataFrame F :=
  match dates, a, b, c with
  | d :: dates', x :: a', y :: b', l :: c' =>
      mkRow i d x y l :: rows_from (S i) dates' a' b' c'
  | _, _, _, _ => []
  end.

(** [pd.DataFrame({...})] from four array columns: a [RangeIndex], and
    [ValueError] unless all columns have the same length. *)
Definition mkDataFrame (dates : list Z) (a b : list F) (c : list string)
    : option (DataFrame F) :=
  if (length a =? length dates)%nat && (length b =? length dates)%nat
     && (length c =? length dates)%nat
  then Some (rows_from 0 dates a b c) else None.

(** The three labels of line 59. *)
Definition LABELS : list string := ["类型1"; "类型2"; "类型3"].

(** The body of [generate_data] (lines 49-61) with the seed and the two
    ends of the date range as parameters. *)
Definition generate_data_at (seed start stop : Z) : M St (DataFrame F) :=
  _ <~ np_random_seed seed ;;
  let dates := date_range start stop in
  let base_values :=
    arr_adds (arr_muls (map fsin (linspace (of_int 0) (fmul (of_int 4) fpi)
                                           (length dates)))
                       (of_int 50))
             (of_int 100) in
  noise <~ normal (of_int 0) (of_int 5) (length dates) ;;
  values <~ liftM (arr_add base_values noise) ;;
  noiseB <~ normal (of_int 0) (of_int 3) (length dates) ;;
  colB <~ liftM (arr_add (arr_muls values (of_decimal 8 1)) noiseB) ;;
  cats <~ choice LABELS (length dates) ;;
  liftM (mkDataFrame dates values colB cats).

(** [generate_data()]: seed 42, 2023-01-01 to 2023-06-30.  The
    [st.cache_data] decorator only memoises the returned frame. *)
Definition generate_data : M St (DataFrame F) :=
  generate_data_at 42 (Timestamp 2023 1 1) (Timestamp 2023 6 30).

(** [legacy_normal] as a total step. *)
Definition normal_step (loc scale : F) (s : St) : F * St :=
  (fadd loc (fmul scale (legacy_gauss s).1), (legacy_gauss s).2).

(** One element of [randint] as a total step. *)
Definition interval_step (low max : Z) (s : St) : Z * St :=
  ((low + (rk_interval max s).1)%Z, (rk_interval max s).2).

(** The generator state after [k] standard-normal draws. *)
Definition after_gauss (k : nat) (s : St) : St := advance legacy_gauss k s.

(** The generator state after [k] integer draws from [0 .. max]. *)
Definition after_interval (max : Z) (k : nat) (s : St) : St :=
  advance (rk_interval max) k s.

(** The [j]-th standard-normal draw of the stream that starts at [s]. *)
Definition gauss_at (s : St) (j : nat) : F :=
  (legacy_gauss (after_gauss j s)).1.

(** The [j]-th integer draw from [0 .. max] of the stream that starts at
    [s]. *)
Definition interval_at (max : Z) (s : St) (j : nat) : Z :=
  (rk_interval max (after_interval max j s)).1.
End Numpy.

(** ** The script's object store, for lines 91-92

    Top-level variables are names bound to object identities; objects live
    in a store.  [df[...]] with a boolean mask builds a new frame object. *)

Inductive pyobj (F : Type) : Type :=
  | OFrame (df : DataFrame F)
  | OMask (m : list bool).
Arguments OFrame {F} df.
Arguments OMask {F} m.

Record script_state (F : Type) : Type := mkState {
  store : gmap positive (pyobj F);
  env : gmap string positive
}.
Arguments mkState {F} store env.
Arguments store {F} s.
Arguments env {F} s.

Section Script.
Context {F : Type}.

(** A new object: a fresh identity, bound in the store. *)
Definition alloc (o : pyobj F) (h : gmap positive (pyobj F))
    : positive * gmap positive (pyobj F) :=
  let l := fresh (dom h) in (l, <[l := o]> h).

(** The frame a variable is bound to; [NameError] or [TypeError] are
    [None]. *)
Definition read_frame (x : string) (st : script_state F)
    : option (DataFrame F) :=
  l ← env st !! x;
  o ← store st !! l;
  match o with OFrame df => Some df | OMask _ => None end.

Definition read_mask (x : string) (st : script_state F)
    : option (list bool) :=
  l ← env st !! x;
  o ← store st !! l;
  match o with OMask m => Some m | OFrame _ => None end.

(** Line 91: [mask = (... >= date_range[0]) & (... <= date_range[1])] *)
Definition exec_line91 (date_range : list Z) (st : script_state F)
    : option (script_state F) :=
  df ← read_frame "df" st;
  lo ← date_range !! 0%nat;
  hi ← date_range !! 1%nat;
  let m := series_and (series_ge (col_dt_date df) lo)
                      (series_le (col_dt_date df) hi) in
  let (l, h) := alloc (OMask m) (store st) in
  Some (mkState h (<["mask" := l]> (env st))).

(** Line 92: [filtered_df = df[mask & df['类别'].isin(category)]] *)
Definition exec_line92 (selected : list string) (st : script_state F)
    : option (script_state F) :=
  df ← read_frame "df" st;
  m ← read_mask "mask" st;
  let out :=
    getitem_mask df (series_and m (isin (col_category df) selected)) in
  let (l, h) := alloc (OFrame out) (store st) in
  Some (mkState h (<["filtered_df" := l]> (env st))).

Definition exec_filter (date_range : list Z) (selected : list string)
    (st : script_state F) : option (script_state F) :=
  exec_line91 date_range st ≫= exec_line92 selected.
End Script.

(** ** The sidebar inputs (lines 71-82) *)

(** [Series.min()] of a datetime column; the [NaT] of an empty column is
    [None]. *)
Definition series_min (s : list Z) : option Z :=
  match s with
  | [] => None
  | x :: t => Some (fold_left Z.min t x)
  end.

(** [Series.max()] of a datetime column. *)
Definition series_max (s : list Z) : option Z :=
  match s with
  | [] => None
  | x :: t => Some (fold_left Z.max t x)
  end.

(** [Series.unique()]: one pass that keeps a value the first time it is met;
    [seen] holds the values met so far. *)
Fixpoint unique_from (seen s : list string) : list string :=
  match s with
  | [] => []
  | x :: t =>
      if existsb (String.eqb x) seen then unique_from seen t
      else x :: unique_from (x :: seen) t
  end.

Definition unique (s : list string) : list string := unique_from [] s.

Section Sidebar.
Context {F : Type}.

(** Lines 71-76: what the date picker returns before the user touches it,
    its [value] pair turned into dates.  An empty frame has no minimum to
    offer.
<<
    value=(df['日期'].min(), df['日期'].max())
>> *)
Definition default_date_range (df : DataFrame F) : option (list Z) :=
  lo ← series_min (map date df);
  hi ← series_max (map date df);
  Some [dt_date lo; dt_date hi].

(** Lines 78-82: the multiselect's options, which are also its default.
<<
    options=df['类别'].unique(), default=df['类别'].unique()
>> *)
Definition default_category (df : DataFrame F) : list string :=
  unique (col_category df).
End Sidebar.

(** ** Calendar fields of a timestamp (lines 135-136), after CPython's
    [datetime] *)

Module CalendarFields.
Local Open Scope Z_scope.

(** [_DAYS_IN_MONTH] *)
Definition DAYS_IN_MONTH : list Z :=
  [-1; 31; 28; 31; 30; 31; 30; 31; 31; 30; 31; 30; 31].

Definition DI400Y : Z := days_before_year 401.
Definition DI100Y : Z := days_before_year 101.
Definition DI4Y : Z := days_before_year 5.

(** [_ord2ymd(n)]: year, month and day of a proleptic Gregorian ordinal. *)
Definition ord2ymd (n : Z) : Z * Z * Z :=
  let n := n - 1 in
  let n400 := n / DI400Y in
  let n := n mod DI400Y in
  let year := n400 * 400 + 1 in
  let n100 := n / DI100Y in
  let n := n mod DI100Y in
  let n4 := n / DI4Y in
  let n := n mod DI4Y in
  let n1 := n / 365 in
  let n := n mod 365 in
  let year := year + n100 * 100 + n4 * 4 + n1 in
  if (n1 =? 4) || (n100 =? 4) then (year - 1, 12, 31)
  else
    let leapyear := (n1 =? 3) && (negb (n4 =? 24) || (n100 =? 3)) in
    let month := Z.shiftr (n + 50) 5 in
    let preceding :=
      nth (Z.to_nat month) DAYS_BEFORE_MONTH 0
      + (if (2 <? month) && leapyear then 1 else 0) in
    if n <? preceding then
      let month := month - 1 in
      let preceding :=
        preceding - (nth (Z.to_nat month) DAYS_IN_MONTH 0
                     + (if (month =? 2) && leapyear then 1 else 0)) in
      (year, month, n - preceding + 1)
    else (year, month, n - preceding + 1).

(** [Series.dt.month] on one element. *)
Definition dt_month (ts : Z) : Z :=
  (ord2ymd (dt_date ts + EPOCH_ORDINAL)).1.2.

(** [date.weekday()]: Monday is 0. *)
Definition weekday (ts : Z) : Z := (dt_date ts + EPOCH_ORDINAL + 6) mod 7.

Definition DAY_NAMES : list string :=
  ["Monday"; "Tuesday"; "Wednesday"; "Thursday"; "Friday"; "Saturday";
   "Sunday"].

(** [Series.dt.day_name()] on one element. *)
Definition dt_day_name (ts : Z) : string :=
  nth (Z.to_nat (weekday ts)) DAY_NAMES "".
End CalendarFields.
Export CalendarFields.

(** The month of the row [i] days after 2023-01-01, from the lengths of
    the months of 2023: January is rows 0 to 30, February 31 to 58, March
    59 to 89, April 90 to 119, May 120 to 150, June 151 to 180. *)
Definition month_of_row (i : nat) : Z :=
  if (i <? 31)%nat then 1%Z
  else if (i <? 59)%nat then 2%Z
  else if (i <? 90)%nat then 3%Z
  else if (i <? 120)%nat then 4%Z
  else if (i <? 151)%nat then 5%Z
  else 6%Z.

(** The day of the month of that row. *)
Definition day_of_row (i : nat) : Z :=
  (Z.of_nat i - nth (Z.to_nat (month_of_row i)) DAYS_BEFORE_MONTH 0 + 1)%Z.

(** The calendar fields of the row dated [i] days after 2023-01-01,
    checked by evaluation against [month_of_row], [day_of_row] and the
    weekly cycle that starts on a Sunday. *)
Definition heatmap_keys_ok (i : nat) : bool :=
  let ts := (Timestamp 2023 1 1 + Z.of_nat i * NS_PER_DAY)%Z in
  let '(y, m, d) := ord2ymd (dt_date ts + EPOCH_ORDINAL) in
  (y =? 2023)%Z && (m =? month_of_row i)%Z && (d =? day_of_row i)%Z
  && (1 <=? d)%Z && (d <=? nth (Z.to_nat m) DAYS_IN_MONTH 0%Z)%Z
  && String.eqb (dt_day_name ts)
                (nth ((i + 6) mod 7) DAY_NAMES "").


(** Follows the spec's words, not the code: the argument of the sine in
    [50 * sin(4π * i / (n-1)) + 100 + noise_i]. *)
Definition spec_curve_arg {F : Type} {FO : Float64 F} (i n : nat) : F :=
  fdiv (fmul (fmul (of_int 4) fpi) (of_int (Z.of_nat i)))
       (of_int (Z.of_nat (n - 1))).

(** ** Instances

    [binary64] is IEEE 754 double precision, the arithmetic numpy's float64
    runs on, with the sine as a parameter: the processor's operations are
    primitive here, libm's sine is not.  [Replay.replay] is a generator that
    plays back recorded draws.  [Z_arith] and [Lcg.lcg] are small executable
    stand-ins on integers, to run the generator; they model neither rounding
    nor the Mersenne Twister. *)

Module Binary64.

(** A Python int as a double: exact for magnitudes below [2^53], the only
    ones the generator converts. *)
Definition of_Z (z : Z) : float :=
  if (z <? 0)%Z
  then PrimFloat.opp (PrimFloat.of_uint63 (Uint63.of_Z (- z)))
  else PrimFloat.of_uint63 (Uint63.of_Z z).

(** [np.pi] *)
Definition pi : float := 0x1.921fb54442d18p+1%float.

(** The literal [m / 10^e]: the double nearest to it, as the quotient of
    two doubles that hold [m] and [10^e] exactly. *)
Definition of_dec (m : Z) (e : nat) : float :=
  PrimFloat.div (of_Z m) (of_Z (10 ^ Z.of_nat e)).

(** A truncated power series for the sine.  It stands in for libm's [sin]
    where a closed term is needed and agrees with it at [0.0]. *)
Definition sin_series (x : float) : float :=
  let x2 := PrimFloat.mul x x in
  let step (k : Z) (acc : float) : float :=
    PrimFloat.sub 1%float (PrimFloat.mul (PrimFloat.div x2 (of_Z k)) acc) in
  PrimFloat.mul x
    (step 6%Z (step 20%Z (step 42%Z (step 72%Z (step 110%Z (step 156%Z
       (step 210%Z 1%float))))))).


End Binary64.

Definition binary64 (sin64 : float → float) : Float64 float := {|
  fadd := PrimFloat.add;
  fsub := PrimFloat.sub;
  fmul := PrimFloat.mul;
  fdiv := PrimFloat.div;
  fsin := sin64;
  fpi := Binary64.pi;
  of_int := Binary64.of_Z;
  of_decimal := Binary64.of_dec;
  feqb := PrimFloat.eqb
|}.

(** [binary64] with the series for the sine: a closed instance to
    evaluate. *)
#[export] Instance binary64_series : Float64 float :=
  binary64 Binary64.sin_series.

Module Replay.


End Replay.

#[export] Instance Z_arith : Float64 Z := {|
  fadd := Z.add;
  fsub := Z.sub;
  fmul := Z.mul;
  fdiv := Z.div;
  fsin x := x;
  fpi := 3%Z;
  of_int z := z;
  of_decimal m e := (m / 10 ^ Z.of_nat e)%Z;
  feqb := Z.eqb
|}.

Module Lcg.
Local Open Scope Z_scope.

Definition next (s : Z) : Z := (1103515245 * s + 12345) mod 2 ^ 31.

#[export] Instance lcg {F : Type} {FO : Float64 F} : MTRand F Z := {|
  init_by_seed seed := seed;
  legacy_gauss s := (of_int (next s mod 7 - 3), next s);
  rk_interval max s := (next s mod (max + 1), next s)
|}.
End Lcg.

(** ** Sample data *)

(** Three rows, the middle one dated in the afternoon of 2023-01-02. *)
Definition three_rows : DataFrame Z :=
  [ mkRow 0%nat (Timestamp 2023 1 1) 1%Z 2%Z "类型1";
    mkRow 1%nat (Timestamp 2023 1 2 + 50000000000000)%Z 3%Z 4%Z "类型2";
    mkRow 2%nat (Timestamp 2023 1 3) 5%Z 6%Z "类型1" ].

(** A store holding [three_rows] under the name [df]. *)
Definition st_three : script_state Z :=
  mkState {[ 1%positive := OFrame three_rows ]} {[ "df" := 1%positive ]}.

(** * Properties of the filter pipeline *)

Section FilterFacts.
Context {F : Type}.
Implicit Types (df out : DataFrame F) (r : Row F) (sel : list string).

Lemma series_and_map {A} (f g : A → bool) (l : list A) :
  series_and (map f l) (map g l) = map (λ x, f x && g x) l.
Proof.
  unfold series_and. induction l as [|a l IH]; simpl; [done|].
  by rewrite IH.
Qed.

Lemma getitem_mask_map (f : Row F → bool) df :
  getitem_mask df (map f df) = List.filter f df.
Proof.
  unfold getitem_mask. induction df as [|r df IH]; simpl; [done|].
  destruct (f r); simpl; by rewrite IH.
Qed.

(** With both ends of the range present, lines 91-92 are a list filter. *)
Lemma filtered_df_filter df lo hi sel :
  filtered_df df [lo; hi] sel = Some (List.filter (keeps lo hi sel) df).
Proof.
  unfold filtered_df, col_dt_date, col_category, series_ge, series_le, isin.
  simpl. f_equal.
  rewrite !map_map, series_and_map.
  rewrite (series_and_map _ (λ r, existsb (String.eqb (category r)) sel)).
  apply getitem_mask_map.
Qed.

(** A tuple with fewer than two dates (the picker mid-selection) makes
    the subscript raise. *)
Lemma filtered_df_short_tuple df sel (d : Z) :
  filtered_df df [] sel = None ∧ filtered_df df [d] sel = None.
Proof. done. Qed.

Lemma isin_spec (c : string) sel :
  existsb (String.eqb c) sel = true ↔ c ∈ sel.
Proof.
  rewrite existsb_exists. split.
  - intros (x & Hin & Heq). apply String.eqb_eq in Heq. subst x.
    by apply list_elem_of_In.
  - intros Hin. exists c. split; [by apply list_elem_of_In|].
    apply String.eqb_refl.
Qed.

Lemma keeps_spec lo hi sel r :
  keeps lo hi sel r = true
  ↔ (lo ≤ dt_date (date r) ≤ hi)%Z ∧ category r ∈ sel.
Proof.
  unfold keeps. rewrite !andb_true_iff, isin_spec, !Z.leb_le. tauto.
Qed.

Lemma filter_sublist {A} (f : A → bool) (l : list A) :
  List.filter f l `sublist_of` l.
Proof.
  induction l as [|a l IH]; simpl; [constructor|].
  destruct (f a); by constructor.
Qed.

Lemma filter_elem_of {A} (f : A → bool) (l : list A) (x : A) :
  x ∈ List.filter f l ↔ x ∈ l ∧ f x = true.
Proof. rewrite !list_elem_of_In. apply filter_In. Qed.

Lemma filter_idem {A} (f : A → bool) (l : list A) :
  List.filter f (List.filter f l) = List.filter f l.
Proof.
  induction l as [|a l IH]; simpl; [done|].
  destruct (f a) eqn:E; simpl; [rewrite E|]; by rewrite ?IH.
Qed.

Lemma filter_none {A} (f : A → bool) (l : list A) :
  (∀ x, x ∈ l → f x = false) → List.filter f l = [].
Proof.
  induction l as [|a l IH]; simpl; intros Hall; [done|].
  rewrite (Hall a) by constructor. apply IH. intros x Hx. apply Hall.
  by constructor.
Qed.

Lemma filter_all {A} (f : A → bool) (l : list A) :
  (∀ x, x ∈ l → f x = true) → List.filter f l = l.
Proof.
  induction l as [|a l IH]; simpl; intros Hall; [done|].
  rewrite (Hall a) by constructor. f_equal. apply IH. intros x Hx.
  apply Hall. by constructor.
Qed.

(** C1.  For every frame, every range [start, stop] and every accepted
    list, the filter returns a frame that holds exactly the input rows
    whose calendar day lies in [start, stop] and whose category is
    accepted; it is a subsequence of the input (relative order kept), and
    it is the input with the failing rows struck out, so repeated rows
    keep their multiplicity. *)
Theorem filter_sound_complete_stable df (start stop : Z) sel :
  ∃ out,
    filtered_df df [start; stop] sel = Some out
    ∧ (∀ r, r ∈ out
            ↔ r ∈ df ∧ (start ≤ dt_date (date r) ≤ stop)%Z
              ∧ category r ∈ sel)
    ∧ out `sublist_of` df
    ∧ out = List.filter (keeps start stop sel) df.
Proof.
  exists (List.filter (keeps start stop sel) df).
  split; [apply filtered_df_filter|]. split; [|split; [|done]].
  - intros r. rewrite filter_elem_of, keeps_spec. tauto.
  - apply filter_sublist.
Qed.

(** C7.  With an empty accepted list, or with [stop] before [start], the
    filter returns the empty frame and does not raise. *)
Theorem filter_empty_selection_or_inverted_range df (start stop : Z) sel :
  sel = [] ∨ (stop < start)%Z →
  filtered_df df [start; stop] sel = Some [].
Proof.
  intros Hcase. rewrite filtered_df_filter. f_equal.
  apply filter_none. intros r _.
  destruct (keeps start stop sel r) eqn:E; [|done].
  apply keeps_spec in E as [Hrange Hcat].
  destruct Hcase as [-> | Hinv]; [by apply elem_of_nil in Hcat | lia].
Qed.

(** C10.  Filtering the filter's own output with the same range and the
    same accepted list returns that output; when the first application
    raises, so does the composite. *)
Theorem filter_idempotent df (date_range : list Z) sel :
  filtered_df df date_range sel ≫= (λ out, filtered_df out date_range sel)
  = filtered_df df date_range sel.
Proof.
  destruct date_range as [|lo [|hi rest]]; [done..|].
  assert (Hpair : ∀ d : DataFrame F, filtered_df d (lo :: hi :: rest) sel
                       = filtered_df d [lo; hi] sel) by done.
  rewrite (Hpair df), filtered_df_filter. simpl.
  by rewrite Hpair, filtered_df_filter, filter_idem.
Qed.
End FilterFacts.

(** * The filter statements leave the source frame alone *)

Section ScriptFacts.
Context {F : Type}.
Implicit Types (st : script_state F) (df : DataFrame F).

Lemma alloc_fresh (o : pyobj F) (h : gmap positive (pyobj F)) :
  h !! (alloc o h).1 = None.
Proof. simpl. apply not_elem_of_dom, is_fresh. Qed.

Lemma alloc_extends (o : pyobj F) (h : gmap positive (pyobj F)) :
  h ⊆ (alloc o h).2.
Proof. simpl. apply insert_subseteq, not_elem_of_dom, is_fresh. Qed.

Lemma alloc_lookup (o : pyobj F) (h : gmap positive (pyobj F)) :
  (alloc o h).2 !! (alloc o h).1 = Some o.
Proof. simpl. apply lookup_insert_eq. Qed.

Lemma read_frame_bound st l df x :
  env st !! x = Some l → store st !! l = Some (OFrame df) →
  read_frame x st = Some df.
Proof. intros Hx Hl. unfold read_frame. rewrite Hx. simpl. by rewrite Hl. Qed.

(** Line 91 binds [mask] to a new object and changes nothing else. *)
Lemma exec_line91_spec st l df lo hi :
  env st !! "df" = Some l → store st !! l = Some (OFrame df) →
  ∃ lm,
    exec_line91 [lo; hi] st
    = Some (mkState
              (<[lm := OMask (map (λ r, (lo <=? dt_date (date r))%Z
                                        && (dt_date (date r) <=? hi)%Z) df)]>
                 (store st))
              (<["mask" := lm]> (env st)))
    ∧ store st !! lm = None.
Proof.
  intros Hx Hl. exists (fresh (dom (store st))). split.
  - unfold exec_line91. rewrite (read_frame_bound st l df) by done. simpl.
    unfold col_dt_date, series_ge, series_le.
    by rewrite !map_map, series_and_map.
  - apply not_elem_of_dom, is_fresh.
Qed.

(** C9.  Running lines 91-92 in a state where [df] names a frame succeeds
    and leaves [df] bound to the same object holding the same rows; every
    object of the store before is unchanged after; the result is a new
    object, distinct from the source, holding the filtered rows. *)
Theorem filter_does_not_mutate_source st (l : positive) df
    (start stop : Z) (sel : list string) :
  env st !! "df" = Some l →
  store st !! l = Some (OFrame df) →
  ∃ st' l',
    exec_filter [start; stop] sel st = Some st'
    ∧ env st' !! "df" = Some l
    ∧ store st' !! l = Some (OFrame df)
    ∧ store st ⊆ store st'
    ∧ env st' !! "filtered_df" = Some l'
    ∧ l' ≠ l
    ∧ store st !! l' = None
    ∧ store st' !! l' = OFrame <$> filtered_df df [start; stop] sel.
Proof.
  intros Hx Hl.
  destruct (exec_line91_spec st l df start stop Hx Hl) as (lm & H91 & Hlm).
  set (m := map (λ r, (start <=? dt_date (date r))%Z
                      && (dt_date (date r) <=? stop)%Z) df) in *.
  set (st1 := mkState (<[lm := OMask m]> (store st))
                     (<["mask" := lm]> (env st))) in *.
  assert (Hne : lm ≠ l) by (intros ->; congruence).
  assert (Hdf1 : read_frame "df" st1 = Some df).
  { apply (read_frame_bound st1 l); simpl.
    - by rewrite lookup_insert_ne.
    - by rewrite lookup_insert_ne. }
  assert (Hm1 : read_mask "mask" st1 = Some m).
  { unfold read_mask. simpl. rewrite lookup_insert_eq. simpl.
    by rewrite lookup_insert_eq. }
  set (out := getitem_mask df (series_and m (isin (col_category df) sel))).
  set (l' := fresh (dom (store st1))).
  assert (Hl'1 : store st1 !! l' = None) by apply not_elem_of_dom, is_fresh.
  assert (Hl' : store st !! l' = None).
  { simpl in Hl'1. apply lookup_insert_None in Hl'1. tauto. }
  exists (mkState (<[l' := OFrame out]> (store st1))
                  (<["filtered_df" := l']> (env st1))), l'.
  split; [|split; [|split; [|split; [|split; [|split; [|split]]]]]].
  - unfold exec_filter. rewrite H91. simpl. unfold exec_line92.
    rewrite Hdf1. simpl. by rewrite Hm1.
  - simpl. by rewrite !lookup_insert_ne.
  - simpl. rewrite lookup_insert_ne by (intros ->; congruence).
    by rewrite lookup_insert_ne.
  - simpl. etrans; [apply insert_subseteq, Hlm|].
    by apply insert_subseteq.
  - simpl. apply lookup_insert_eq.
  - intros ->. congruence.
  - done.
  - rewrite filtered_df_filter. simpl. rewrite lookup_insert_eq.
    do 2 f_equal. unfold out, m, col_category, isin.
    rewrite map_map, series_and_map. apply getitem_mask_map.
Qed.
End ScriptFacts.

(** * Properties of the generator *)

Section DrawFacts.
Context {St A : Type}.
Implicit Types (step : St → A * St) (one : M St A).

Lemma draws_total one step :
  (∀ s, one s = Some (step s)) →
  ∀ n s, draws one n s = Some (run_draws step n s).
Proof.
  intros Hone. induction n as [|n IH]; intros s; simpl; [done|].
  unfold bindM. rewrite Hone. destruct (step s) as [a s1].
  rewrite IH. by destruct (run_draws step n s1).
Qed.

Lemma run_draws_length step n s : length (run_draws step n s).1 = n.
Proof.
  revert s. induction n as [|n IH]; intros s; simpl; [done|].
  destruct (step s) as [a s1]. specialize (IH s1).
  destruct (run_draws step n s1). simpl in *. by rewrite IH.
Qed.

Lemma run_draws_state step n s : (run_draws step n s).2 = advance step n s.
Proof.
  revert s. induction n as [|n IH]; intros s; simpl; [done|].
  destruct (step s) as [a s1] eqn:E. specialize (IH s1).
  destruct (run_draws step n s1). simpl in *. by rewrite IH.
Qed.

(** Draws come out in sequence order: element [i] is the draw made after
    [i] earlier ones. *)
Lemma run_draws_lookup step n s i :
  (i < n)%nat →
  (run_draws step n s).1 !! i = Some (step (advance step i s)).1.
Proof.
  revert s i. induction n as [|n IH]; intros s i Hi; [lia|]. simpl.
  destruct (step s) as [a s1] eqn:E. specialize (IH s1).
  destruct (run_draws step n s1) as [l s2]. simpl in *.
  destruct i as [|i]; simpl; [by rewrite E|].
  rewrite E. simpl. apply IH. lia.
Qed.

Lemma advance_add step j k s :
  advance step (j + k) s = advance step k (advance step j s).
Proof. revert s. induction j as [|j IH]; intros s; simpl; [done|]. apply IH. Qed.

Lemma advance_ext {B} step (step' : St → B * St) k s :
  (∀ s, (step s).2 = (step' s).2) → advance step k s = advance step' k s.
Proof.
  intros Hext. revert s. induction k as [|k IH]; intros s; simpl; [done|].
  by rewrite Hext, IH.
Qed.
End DrawFacts.

Section ListFacts.
Context {A B : Type}.

Lemma lookup_map (f : A → B) (l : list A) (i : nat) :
  map f l !! i = f <$> l !! i.
Proof.
  revert i. induction l as [|a l IH]; intros [|i]; simpl; auto.
Qed.

Lemma lookup_zip_with_both {C} (f : A → B → C) (l : list A) (k : list B)
    (i : nat) (x : A) (y : B) :
  l !! i = Some x → k !! i = Some y → zip_with f l k !! i = Some (f x y).
Proof. intros Hx Hy. apply lookup_zip_with_Some. eauto. Qed.
End ListFacts.

Section CalendarFacts.
Local Open Scope Z_scope.

Lemma date_range_length (start stop : Z) :
  length (date_range start stop) = Z.to_nat (delta_days start stop + 1).
Proof. unfold date_range. by rewrite length_map, length_seq. Qed.

Lemma date_range_lookup (start stop : Z) (i : nat) :
  (i < length (date_range start stop))%nat →
  date_range start stop !! i = Some (start + Z.of_nat i * NS_PER_DAY).
Proof.
  rewrite date_range_length. intros Hi. unfold date_range.
  rewrite lookup_map, lookup_seq_lt by done. done.
Qed.

Lemma dt_date_add_days (ts : Z) (k : Z) :
  dt_date (ts + k * NS_PER_DAY) = dt_date ts + k.
Proof. unfold dt_date. by rewrite Z.div_add. Qed.

Lemma dt_date_Timestamp (y m d : Z) : dt_date (Timestamp y m d) = date_of y m d.
Proof. unfold dt_date, Timestamp. by rewrite Z.div_mul. Qed.

Lemma delta_days_nonneg (start stop : Z) :
  start ≤ stop → 0 ≤ delta_days start stop.
Proof. intros Hle. unfold delta_days. apply Z.div_pos; [lia|done]. Qed.
End CalendarFacts.

Section NumpyFacts.
Context {F : Type} {FO : Float64 F} {St : Type} {RNG : MTRand F St}.
Implicit Types (s g : St) (n i : nat).

Lemma normal_spec (loc scale : F) n s :
  ∃ zs, normal loc scale n s = Some (zs, after_gauss n s)
        ∧ length zs = n
        ∧ ∀ i, i < n →
               zs !! i = Some (fadd loc (fmul scale (gauss_at s i))).
Proof.
  assert (Hrun : normal loc scale n s
                 = Some (run_draws (normal_step loc scale) n s)).
  { apply draws_total. intros s'. unfold legacy_normal, normal_step.
    by destruct (legacy_gauss s'). }
  assert (Hadv : ∀ k, advance (normal_step loc scale) k s = after_gauss k s).
  { intros k. by apply advance_ext. }
  exists (run_draws (normal_step loc scale) n s).1. split; [|split].
  - rewrite Hrun, <- Hadv, <- run_draws_state.
    by destruct (run_draws (normal_step loc scale) n s).
  - apply run_draws_length.
  - intros i Hi. rewrite run_draws_lookup by done. by rewrite Hadv.
Qed.

Lemma randint_spec (low high : Z) n s :
  (low < high)%Z →
  ∃ ks, randint low high n s
        = Some (ks, after_interval (high - 1 - low) n s)
        ∧ length ks = n
        ∧ ∀ i, i < n →
               ks !! i
               = Some (low + interval_at (high - 1 - low) s i)%Z.
Proof.
  intros Hlt. set (mx := (high - 1 - low)%Z).
  assert (Hrun : randint low high n s
                 = Some (run_draws (interval_step low mx) n s)).
  { unfold randint. destruct n as [|n]; [done|]. simpl (S n =? 0)%nat.
    destruct (Z.leb_spec high low) as [?|_]; [lia|].
    apply draws_total. intros s'. unfold interval_step. fold mx.
    by destruct (rk_interval mx s'). }
  assert (Hadv : ∀ k, advance (interval_step low mx) k s
                      = after_interval mx k s).
  { intros k. by apply advance_ext. }
  exists (run_draws (interval_step low mx) n s).1. split; [|split].
  - rewrite Hrun, <- Hadv, <- run_draws_state.
    by destruct (run_draws (interval_step low mx) n s).
  - apply run_draws_length.
  - intros i Hi. rewrite run_draws_lookup by done. by rewrite Hadv.
Qed.

Lemma getitem_in_range {A} (a : list A) (k : Z) :
  (0 ≤ k)%Z → getitem a k = a !! Z.to_nat k.
Proof. intros Hk. unfold getitem. by destruct (Z.ltb_spec k 0); [lia|]. Qed.

Lemma linspace_length (start stop : F) n : length (linspace start stop n) = n.
Proof.
  unfold linspace.
  repeat match goal with |- context [if ?b then _ else _] => destruct b end;
    by rewrite ?length_insert, !length_map, length_seq.
Qed.

Lemma arr_add_same_length (a b : list F) :
  length a = length b → arr_add a b = Some (zip_with fadd a b).
Proof. intros Hlen. unfold arr_add. by rewrite Hlen, Nat.eqb_refl. Qed.

Lemma rows_from_length (k : nat) (ds : list Z) (a b : list F)
    (c : list string) :
  length a = length ds → length b = length ds → length c = length ds →
  length (rows_from k ds a b c) = length ds.
Proof.
  revert k a b c.
  induction ds as [|d ds IH]; intros k [|x a] [|y b] [|l c]; simpl;
    try done.
  intros Ha Hb Hc. f_equal. apply IH; lia.
Qed.

Lemma rows_from_lookup (k : nat) (ds : list Z) (a b : list F)
    (c : list string) i d x y l :
  ds !! i = Some d → a !! i = Some x → b !! i = Some y → c !! i = Some l →
  rows_from k ds a b c !! i = Some (mkRow (k + i) d x y l).
Proof.
  revert k a b c i.
  induction ds as [|d0 ds IH]; intros k [|x0 a] [|y0 b] [|l0 c] [|i];
    simpl; try done.
  - intros. simplify_eq. by rewrite Nat.add_0_r.
  - intros Hd Hx Hy Hl. rewrite Nat.add_succ_r.
    apply (IH (S k) a b c i Hd Hx Hy Hl).
Qed.
End NumpyFacts.

Section GeneratorFacts.
Context {F : Type} {FO : Float64 F} {St : Type} {RNG : MTRand F St}.
Implicit Types (s g : St) (n i : nat).

(** The contract of the bounded integer draw: a value of [0 .. max]. *)
Hypothesis rk_interval_range :
  ∀ (max : Z) s, (0 ≤ max)%Z → (0 ≤ (rk_interval max s).1 ≤ max)%Z.

Lemma choice_spec {A} (a : list A) n s :
  a ≠ [] →
  ∃ cs, choice a n s
        = Some (cs, after_interval (Z.of_nat (length a) - 1) n s)
        ∧ length cs = n
        ∧ ∀ i, i < n →
            ∃ x, cs !! i = Some x
                 ∧ a !! Z.to_nat
                          (interval_at (Z.of_nat (length a) - 1) s i)
                   = Some x.
Proof.
  intros Hne. set (mx := (Z.of_nat (length a) - 1)%Z).
  assert (Hlen : (0 < length a)%nat) by (destruct a; simpl; [done|lia]).
  destruct (randint_spec 0 (Z.of_nat (length a)) n s) as (ks & Hks & Hn & Hk);
    [lia|].
  replace (Z.of_nat (length a) - 1 - 0)%Z with mx in * by lia.
  assert (Hget : ∀ i, i < n →
            ks !! i = Some (interval_at mx s i)
            ∧ getitem a (interval_at mx s i)
              = a !! Z.to_nat (interval_at mx s i)
            ∧ is_Some (a !! Z.to_nat (interval_at mx s i))).
  { intros i Hi. pose proof (rk_interval_range mx (after_interval mx i s))
      as Hr. fold (interval_at mx s i) in Hr.
    rewrite (Hk i Hi), Z.add_0_l. split; [done|].
    split; [apply getitem_in_range; lia|].
    apply lookup_lt_is_Some. lia. }
  destruct (mapM_is_Some_2 (getitem a) ks) as [cs Hcs].
  { apply Forall_lookup_2. intros i k Hik.
    assert (Hi : i < n) by (rewrite <- Hn; by eapply lookup_lt_Some).
    destruct (Hget i Hi) as (Hki & Hg & Hsome). simpl.
    assert (k = interval_at mx s i) as -> by congruence. by rewrite Hg. }
  exists cs. split; [|split].
  - unfold choice.
    destruct (length a =? 0)%nat eqn:E; [apply Nat.eqb_eq in E; lia|].
    simpl. unfold bindM. rewrite Hks. unfold liftM. by rewrite Hcs.
  - apply length_mapM in Hcs. lia.
  - intros i Hi. destruct (Hget i Hi) as (Hki & Hg & Hsome).
    apply mapM_Some_1 in Hcs.
    destruct (Forall2_lookup_l _ _ _ _ _ Hcs Hki) as (x & Hx & Hgx).
    exists x. split; [done|]. by rewrite <- Hg.
Qed.

(** What one call computes, row by row.  [x] is element [i] of the
    [linspace], the two noise terms are draws [i] and [n + i] of the
    standard-normal stream that starts at the seeded state, and the label
    is picked by integer draw [i] of the stream that follows them. *)
Lemma generate_data_at_rows (seed start stop : Z) g :
  (0 ≤ seed < 2 ^ 32)%Z →
  let n := length (date_range start stop) in
  let s0 : St := init_by_seed seed in
  ∃ df : DataFrame F,
    generate_data_at seed start stop g
    = Some (df, after_interval 2 n (after_gauss (n + n) s0))
    ∧ length df = n
    ∧ ∀ i, i < n →
        ∃ r x,
          df !! i = Some r
          ∧ linspace (of_int 0) (fmul (of_int 4) fpi) n !! i = Some x
          ∧ idx r = i
          ∧ date r = (start + Z.of_nat i * NS_PER_DAY)%Z
          ∧ valueA r
            = fadd (fadd (fmul (fsin x) (of_int 50)) (of_int 100))
                   (fadd (of_int 0) (fmul (of_int 5) (gauss_at s0 i)))
          ∧ valueB r
            = fadd (fmul (valueA r) (of_decimal 8 1))
                   (fadd (of_int 0)
                         (fmul (of_int 3) (gauss_at s0 (n + i))))
          ∧ LABELS !! Z.to_nat
                        (interval_at 2 (after_gauss (n + n) s0) i)
            = Some (category r).
Proof.
  intros Hseed n s0.
  set (dates := date_range start stop).
  set (lin := linspace (of_int 0) (fmul (of_int 4) fpi) n).
  set (base := arr_adds (arr_muls (map fsin lin) (of_int 50)) (of_int 100)).
  destruct (normal_spec (of_int 0) (of_int 5) n s0) as (zA & HzA & HnA & HA).
  destruct (normal_spec (of_int 0) (of_int 3) n (after_gauss n s0))
    as (zB & HzB & HnB & HB).
  destruct (choice_spec LABELS n (after_gauss (n + n) s0))
    as (cs & Hcs & Hnc & Hc); [done|].
  set (values := zip_with fadd base zA).
  set (colB := zip_with fadd (arr_muls values (of_decimal 8 1)) zB).
  assert (Hbase : length base = n).
  { unfold base, arr_adds, arr_muls. rewrite !length_map.
    apply linspace_length. }
  assert (Hvalues : length values = n).
  { unfold values. rewrite length_zip_with. lia. }
  assert (HcolB : length colB = n).
  { unfold colB, arr_muls. rewrite length_zip_with, length_map. lia. }
  exists (rows_from 0 dates values colB cs). split; [|split].
  - unfold generate_data_at, bindM, np_random_seed.
    destruct (Z.leb_spec 0 seed); [|lia].
    destruct (Z.ltb_spec seed (2 ^ 32)); [|lia]. simpl.
    fold n. fold dates. fold s0. fold lin. fold base. rewrite HzA.
    unfold liftM at 1. rewrite arr_add_same_length by lia. fold values.
    rewrite HzB.
    unfold liftM at 1.
    rewrite arr_add_same_length
      by (unfold arr_muls; rewrite length_map; lia).
    fold colB. unfold after_gauss in *. rewrite <- advance_add.
    simpl in Hcs. rewrite Hcs. unfold liftM, mkDataFrame.
    rewrite Hvalues, HcolB, Hnc. fold n. by rewrite Nat.eqb_refl.
  - rewrite rows_from_length; done || lia.
  - intros i Hi.
    assert (Hd : dates !! i = Some (start + Z.of_nat i * NS_PER_DAY)%Z)
      by by apply date_range_lookup.
    destruct (lookup_lt_is_Some_2 lin i) as [x Hx];
      [unfold lin; by rewrite linspace_length|].
    destruct (Hc i Hi) as (l & Hl & Hlab).
    assert (Hb : base !! i
                 = Some (fadd (fmul (fsin x) (of_int 50)) (of_int 100))).
    { unfold base, arr_adds, arr_muls. rewrite !lookup_map, Hx. done. }
    assert (Hv : values !! i
                 = Some (fadd (fadd (fmul (fsin x) (of_int 50)) (of_int 100))
                              (fadd (of_int 0)
                                    (fmul (of_int 5) (gauss_at s0 i))))).
    { unfold values. apply lookup_zip_with_both; [done|]. by apply HA. }
    assert (Hgb : gauss_at (after_gauss n s0) i = gauss_at s0 (n + i)).
    { unfold gauss_at, after_gauss. by rewrite advance_add. }
    eexists _, x. split; [|split; [done|]].
    + apply rows_from_lookup; [done|done| |done].
      unfold colB. apply lookup_zip_with_both.
      * unfold arr_muls. rewrite lookup_map, Hv. done.
      * by apply HB.
    + simpl. rewrite Hgb. simpl in Hlab. done.
Qed.
End GeneratorFacts.

Section GeneratorClaims.
Context {F : Type} {FO : Float64 F} {St : Type} {RNG : MTRand F St}.
Implicit Types (s g : St) (n i : nat) (df : DataFrame F).

Hypothesis rk_interval_range :
  ∀ (max : Z) s, (0 ≤ max)%Z → (0 ≤ (rk_interval max s).1 ≤ max)%Z.

(** The generator's result does not read the incoming global state. *)
Lemma generate_data_at_ignores_state (seed start stop : Z) g1 g2 :
  generate_data_at seed start stop g1 = generate_data_at seed start stop g2.
Proof. reflexivity. Qed.

(** C2.  Two invocations with the same seed and the same date range give
    the same outcome whatever the global generator state was before each:
    the outcomes are equal, and for a seed that [np.random.seed] accepts
    one frame is returned by every invocation, so the two frames agree row
    by row. *)
Theorem generate_data_deterministic (seed start stop : Z) :
  (∀ g1 g2,
      generate_data_at seed start stop g1
      = generate_data_at seed start stop g2)
  ∧ ((0 ≤ seed < 2 ^ 32)%Z →
     ∃ df s', ∀ g, generate_data_at seed start stop g = Some (df, s')).
Proof.
  split; [intros g1 g2; apply generate_data_at_ignores_state|].
  intros Hseed.
  destruct (generate_data_at_rows rk_interval_range seed start stop
              (init_by_seed seed) Hseed) as (df & Hgen & _).
  eexists df, _. intros g.
  by rewrite (generate_data_at_ignores_state _ _ _ g (init_by_seed seed)).
Qed.

(** Positions and dates of the rows, for any accepted seed and range. *)
Lemma generate_data_at_dates (seed start stop : Z) g :
  (0 ≤ seed < 2 ^ 32)%Z →
  ∃ df s',
    generate_data_at seed start stop g = Some (df, s')
    ∧ length df = Z.to_nat (delta_days start stop + 1)
    ∧ ∀ i r, df !! i = Some r →
             idx r = i ∧ date r = (start + Z.of_nat i * NS_PER_DAY)%Z.
Proof.
  intros Hseed.
  destruct (generate_data_at_rows rk_interval_range seed start stop g Hseed)
    as (df & Hgen & Hlen & Hrows).
  eexists df, _. split; [done|]. split; [by rewrite Hlen, date_range_length|].
  intros i r Hr.
  destruct (Hrows i) as (r' & x & Hr' & _ & Hidx & Hdate & _).
  { rewrite <- Hlen. by eapply lookup_lt_Some. }
  by simplify_eq.
Qed.

(** Every generated label is one of the three, for any seed and range. *)
Lemma generate_data_at_labels (seed start stop : Z) g df s' :
  generate_data_at seed start stop g = Some (df, s') →
  Forall (λ r, category r ∈ LABELS) df.
Proof.
  intros Hgen.
  assert (Hseed : (0 ≤ seed < 2 ^ 32)%Z).
  { unfold generate_data_at, bindM, np_random_seed in Hgen.
    destruct (Z.leb_spec 0 seed), (Z.ltb_spec seed (2 ^ 32));
      simpl in Hgen; try done; lia. }
  destruct (generate_data_at_rows rk_interval_range seed start stop g Hseed)
    as (df' & Hgen' & Hlen & Hrows).
  assert (df' = df) as -> by congruence.
  apply Forall_lookup_2. intros i r Hr.
  destruct (Hrows i) as (r' & x & Hr' & _ & _ & _ & _ & _ & Hlab).
  { rewrite <- Hlen. by eapply lookup_lt_Some. }
  assert (r' = r) as -> by congruence.
  eapply list_elem_of_lookup_2, Hlab.
Qed.

(** The fixed call: 181 rows, row [i] dated [i] days after 2023-01-01. *)
Lemma generate_data_days g :
  ∃ df s',
    generate_data g = Some (df, s')
    ∧ length df = 181
    ∧ (∀ i r, df !! i = Some r →
              date r = (Timestamp 2023 1 1 + Z.of_nat i * NS_PER_DAY)%Z
              ∧ dt_date (date r) = (date_of 2023 1 1 + Z.of_nat i)%Z).
Proof.
  destruct (generate_data_at_dates 42 (Timestamp 2023 1 1)
              (Timestamp 2023 6 30) g) as (df & s' & Hgen & Hlen & Hrows);
    [done|].
  exists df, s'. split; [done|]. split; [rewrite Hlen; by vm_compute|].
  intros i r Hr. destruct (Hrows i r Hr) as [_ ->]. split; [done|].
  by rewrite dt_date_add_days, dt_date_Timestamp.
Qed.

Lemma last_day_offset : date_of 2023 6 30 = (date_of 2023 1 1 + 180)%Z.
Proof. by vm_compute. Qed.

(** C5.  [generate_data()] returns a frame of
    [(end - start).days + 1 = 181] rows; row [i] is dated [i] days after
    2023-01-01 and the last day is 2023-06-30, so each calendar day of the
    range is the day of exactly one row; timestamps increase strictly
    along the frame. *)
Theorem generated_one_row_per_day g :
  ∃ df s',
    generate_data g = Some (df, s')
    ∧ Z.of_nat (length df)
      = (delta_days (Timestamp 2023 1 1) (Timestamp 2023 6 30) + 1)%Z
    ∧ length df = 181
    ∧ (∀ i r, df !! i = Some r →
              dt_date (date r) = (date_of 2023 1 1 + Z.of_nat i)%Z)
    ∧ (∀ d : Z, (date_of 2023 1 1 ≤ d ≤ date_of 2023 6 30)%Z →
         ∃ i r, df !! i = Some r ∧ dt_date (date r) = d
                ∧ ∀ j r', df !! j = Some r' →
                          dt_date (date r') = d → j = i)
    ∧ (∀ i j ri rj, df !! i = Some ri → df !! j = Some rj →
                    i < j → (date ri < date rj)%Z).
Proof.
  destruct (generate_data_days g) as (df & s' & Hgen & Hn & Hrows).
  exists df, s'. split; [done|]. split; [rewrite Hn; by vm_compute|].
  split; [done|]. split; [intros i r Hr; by apply Hrows|]. split.
  - intros d Hd. pose proof last_day_offset as Hlast.
    set (i := Z.to_nat (d - date_of 2023 1 1)).
    destruct (lookup_lt_is_Some_2 df i) as [r Hr]; [lia|].
    exists i, r. split; [done|].
    split; [destruct (Hrows i r Hr) as [_ ->]; lia|].
    intros j r' Hr' Hd'. destruct (Hrows j r' Hr') as [_ Hj].
    rewrite Hj in Hd'. lia.
  - intros i j ri rj Hi Hj Hij.
    destruct (Hrows i ri Hi) as [-> _]. destruct (Hrows j rj Hj) as [-> _].
    assert (0 < NS_PER_DAY)%Z by done. nia.
Qed.

(** The fixed call, row by row: the master lemma at 181 rows. *)
Lemma generate_data_rows g :
  let s0 : St := init_by_seed 42 in
  ∃ df,
    generate_data g = Some (df, after_interval 2 181 (after_gauss 362 s0))
    ∧ length df = 181
    ∧ ∀ i r, df !! i = Some r →
        ∃ x,
          linspace (of_int 0) (fmul (of_int 4) fpi) 181 !! i = Some x
          ∧ valueA r
            = fadd (fadd (fmul (fsin x) (of_int 50)) (of_int 100))
                   (fadd (of_int 0) (fmul (of_int 5) (gauss_at s0 i)))
          ∧ valueB r
            = fadd (fmul (valueA r) (of_decimal 8 1))
                   (fadd (of_int 0) (fmul (of_int 3) (gauss_at s0 (181 + i))))
          ∧ LABELS !! Z.to_nat (interval_at 2 (after_gauss 362 s0) i)
            = Some (category r).
Proof.
  intros s0.
  pose proof (generate_data_at_rows rk_interval_range 42 (Timestamp 2023 1 1)
                (Timestamp 2023 6 30) g) as Hm.
  assert (Hn : length (date_range (Timestamp 2023 1 1) (Timestamp 2023 6 30))
               = 181) by by vm_compute.
  cbv zeta in Hm. rewrite !Hn in Hm.
  destruct Hm as (df & Hgen & Hlen & Hrows); [done|].
  exists df. split; [done|]. split; [done|]. intros i r Hr.
  destruct (Hrows i) as (r' & x & Hr' & Hx & _ & _ & HA & HB & HL).
  { rewrite <- Hlen. by eapply lookup_lt_Some. }
  assert (r' = r) as -> by congruence. by exists x.
Qed.

(** C6.  Whatever the seed, the range and the state before the call, every
    row of a frame the generator returns carries one of the three labels
    of line 59. *)
Theorem generated_category_closed (seed start stop : Z) g df s' :
  generate_data_at seed start stop g = Some (df, s') →
  ∀ r, r ∈ df →
       category r = "类型1" ∨ category r = "类型2" ∨ category r = "类型3".
Proof.
  intros Hgen r Hr.
  pose proof (generate_data_at_labels _ _ _ _ _ _ Hgen) as Hall.
  rewrite Forall_forall in Hall. specialize (Hall r Hr).
  unfold LABELS in Hall. rewrite !elem_of_cons, elem_of_nil in Hall. tauto.
Qed.

(** C8.  With seed 42 and the range 2023-01-01 to 2023-06-30, filtering
    the generated frame by the full range and all three labels returns
    that same frame, of 181 rows. *)
Theorem filter_full_range_is_identity g :
  ∃ df s',
    generate_data g = Some (df, s')
    ∧ length df = 181
    ∧ filtered_df df [date_of 2023 1 1; date_of 2023 6 30]
                  ["类型1"; "类型2"; "类型3"]
      = Some df.
Proof.
  destruct (generate_data_days g) as (df & s' & Hgen & Hn & Hday).
  exists df, s'. split; [done|]. split; [done|].
  rewrite filtered_df_filter. f_equal. apply filter_all. intros r Hr.
  apply keeps_spec. split.
  - apply list_elem_of_lookup in Hr as [i Hi].
    destruct (Hday i r Hi) as [_ ->].
    assert (i < 181) by (rewrite <- Hn; by eapply lookup_lt_Some).
    pose proof last_day_offset. lia.
  - pose proof (generate_data_at_labels _ _ _ _ _ _ Hgen) as Hall.
    rewrite Forall_forall in Hall. apply (Hall r Hr).
Qed.
End GeneratorClaims.

(** * The value formulas, in the arithmetic of the interface *)

Section ValueFormulas.
Context {F : Type} {FO : Float64 F} {St : Type} {RNG : MTRand F St}.
Implicit Types (s g : St) (n i : nat).

Hypothesis rk_interval_range :
  ∀ (max : Z) s, (0 ≤ max)%Z → (0 ≤ (rk_interval max s).1 ≤ max)%Z.



(** Multiplication in the interface does not depend on the order of its
    operands, as in float64. *)
Hypothesis fmul_comm : ∀ x y : F, fmul x y = fmul y x.

(** C4.  In [generate_data()] the seeded stream is consumed by three calls
    in this order, each starting where the previous one stopped:
    [normal(0, 5, 181)] for the valueA noise, [normal(0, 3, 181)] for the
    valueB noise, then [choice] for the labels, which draws 181 indices by
    [randint(0, 3, 181)].  That is 181 standard-normal draws, 181 more, then
    181 integer draws, and the call ends in the state after them.  Row [i]
    of the 181 has [valueB = 0.8 * valueA + noise'_i] in the operations of
    the interface, [noise'_i] being element [i] of the second call, which
    is [0 + 3 * z] for [z] standard-normal draw number [181 + i] of the
    stream; its label is the one at the index drawn [i]-th by the third
    call. *)
Theorem valueB_formula_and_draw_order g :
  ∃ df noiseA noiseB cats idxs s1 s2 s3,
    normal (of_int 0) (of_int 5) 181 (init_by_seed 42) = Some (noiseA, s1)
    ∧ normal (of_int 0) (of_int 3) 181 s1 = Some (noiseB, s2)
    ∧ choice LABELS 181 s2 = Some (cats, s3)
    ∧ randint 0 3 181 s2 = Some (idxs, s3)
    ∧ generate_data g = Some (df, s3)
    ∧ length df = 181 ∧ length noiseA = 181 ∧ length noiseB = 181
    ∧ length cats = 181 ∧ length idxs = 181
    ∧ s1 = after_gauss 181 (init_by_seed 42)
    ∧ s2 = after_gauss 181 s1
    ∧ s3 = after_interval 2 181 s2
    ∧ ∀ i r, df !! i = Some r →
        ∃ eA eB k x,
          noiseA !! i = Some eA
          ∧ noiseB !! i = Some eB
          ∧ idxs !! i = Some k
          ∧ cats !! i = Some (category r)
          ∧ eA = fadd (of_int 0)
                      (fmul (of_int 5) (gauss_at (init_by_seed 42) i))
          ∧ eB = fadd (of_int 0)
                      (fmul (of_int 3) (gauss_at (init_by_seed 42) (181 + i)))
          ∧ k = interval_at 2 s2 i
          ∧ LABELS !! Z.to_nat k = Some (category r)
          ∧ linspace (of_int 0) (fmul (of_int 4) fpi) 181 !! i = Some x
          ∧ valueA r
            = fadd (fadd (fmul (fsin x) (of_int 50)) (of_int 100)) eA
          ∧ valueB r = fadd (fmul (of_decimal 8 1) (valueA r)) eB
          ∧ valueB r = fadd (fmul (valueA r) (of_decimal 8 1)) eB.
Proof.
  destruct (generate_data_rows rk_interval_range g)
    as (df & Hgen & Hlen & Hrows).
  destruct (normal_spec (of_int 0) (of_int 5) 181 (init_by_seed 42))
    as (nA & HnA & HlenA & HlA).
  destruct (normal_spec (of_int 0) (of_int 3) 181 (after_gauss 181 (init_by_seed 42)))
    as (nB & HnB & HlenB & HlB).
  assert (Hadd : after_gauss 181 (after_gauss 181 (init_by_seed 42)) = after_gauss 362 (init_by_seed 42)).
  { unfold after_gauss. by rewrite <- advance_add. }
  destruct (choice_spec rk_interval_range LABELS 181 (after_gauss 362 (init_by_seed 42)))
    as (cs & Hcs & Hlenc & Hlc); [done|].
  destruct (randint_spec 0 3 181 (after_gauss 362 (init_by_seed 42)))
    as (ks & Hks & Hlenk & Hlk); [lia|].
  change (Z.of_nat (length LABELS) - 1)%Z with 2%Z in Hcs, Hlc.
  change (3 - 1 - 0)%Z with 2%Z in Hks, Hlk.
  exists df, nA, nB, cs, ks, (after_gauss 181 (init_by_seed 42)),
    (after_gauss 181 (after_gauss 181 (init_by_seed 42))),
    (after_interval 2 181 (after_gauss 181 (after_gauss 181 (init_by_seed 42)))).
  rewrite Hadd.
  split; [exact HnA|]. split; [by rewrite <- Hadd|]. split; [exact Hcs|].
  split; [exact Hks|]. split; [exact Hgen|].
  do 5 (split; [done|]). do 3 (split; [done|]).
  intros i r Hr.
  assert (Hi : i < 181) by (rewrite <- Hlen; by eapply lookup_lt_Some).
  destruct (Hrows i r Hr) as (x & Hx & HA & HB & HL).
  destruct (Hlc i Hi) as (l & Hl & Hlab).
  assert (l = category r) as -> by congruence.
  assert (Hg : gauss_at (after_gauss 181 (init_by_seed 42)) i = gauss_at (init_by_seed 42) (181 + i)).
  { unfold gauss_at, after_gauss. by rewrite advance_add. }
  exists (fadd (of_int 0) (fmul (of_int 5) (gauss_at (init_by_seed 42) i))),
    (fadd (of_int 0) (fmul (of_int 3) (gauss_at (init_by_seed 42) (181 + i)))),
    (interval_at 2 (after_gauss 362 (init_by_seed 42)) i), x.
  split; [by apply HlA|]. split; [rewrite <- Hg; by apply HlB|].
  split; [rewrite (Hlk i Hi); f_equal; lia|]. split; [done|].
  do 3 (split; [done|]). split; [done|]. split; [done|]. split; [done|].
  split; [by rewrite (fmul_comm (of_decimal 8 1))|done].
Qed.
End ValueFormulas.

(** * The spec's formula for valueA against float64 *)




(** * Further properties of lines 71-92 *)

Section SidebarFacts.
Context {F : Type}.
Implicit Types (df out : DataFrame F) (r : Row F) (sel : list string).

Lemma fold_min_le (t : list Z) (x : Z) :
  (fold_left Z.min t x ≤ x)%Z ∧ ∀ y, y ∈ t → (fold_left Z.min t x ≤ y)%Z.
Proof.
  revert x. induction t as [|a t IH]; intros x; simpl.
  - split; [lia|]. intros y Hy. by apply elem_of_nil in Hy.
  - destruct (IH (Z.min x a)) as [Hx Ht]. split; [lia|].
    intros y Hy. apply elem_of_cons in Hy as [->|Hy]; [lia|by apply Ht].
Qed.

Lemma fold_max_ge (t : list Z) (x : Z) :
  (x ≤ fold_left Z.max t x)%Z ∧ ∀ y, y ∈ t → (y ≤ fold_left Z.max t x)%Z.
Proof.
  revert x. induction t as [|a t IH]; intros x; simpl.
  - split; [lia|]. intros y Hy. by apply elem_of_nil in Hy.
  - destruct (IH (Z.max x a)) as [Hx Ht]. split; [lia|].
    intros y Hy. apply elem_of_cons in Hy as [->|Hy]; [lia|by apply Ht].
Qed.

Lemma series_min_le (s : list Z) (m y : Z) :
  series_min s = Some m → y ∈ s → (m ≤ y)%Z.
Proof.
  destruct s as [|x t]; simpl; [done|]. intros [= <-] Hy.
  destruct (fold_min_le t x) as [Hx Ht].
  apply elem_of_cons in Hy as [->|Hy]; [done|by apply Ht].
Qed.

Lemma series_max_ge (s : list Z) (m y : Z) :
  series_max s = Some m → y ∈ s → (y ≤ m)%Z.
Proof.
  destruct s as [|x t]; simpl; [done|]. intros [= <-] Hy.
  destruct (fold_max_ge t x) as [Hx Ht].
  apply elem_of_cons in Hy as [->|Hy]; [done|by apply Ht].
Qed.

Lemma dt_date_mono (a b : Z) : (a ≤ b)%Z → (dt_date a ≤ dt_date b)%Z.
Proof. intros Hab. unfold dt_date. by apply Z.div_le_mono. Qed.

(** What the one pass of [unique_from] keeps. *)
Lemma unique_from_spec (seen s : list string) :
  (∀ x, x ∈ unique_from seen s ↔ x ∈ s ∧ x ∉ seen)
  ∧ NoDup (unique_from seen s)
  ∧ unique_from seen s `sublist_of` s.
Proof.
  revert seen. induction s as [|a s IH]; intros seen; simpl.
  - split; [|split; [constructor|constructor]].
    intros x. rewrite elem_of_nil. tauto.
  - destruct (existsb (String.eqb a) seen) eqn:E.
    + apply isin_spec in E. destruct (IH seen) as (Hin & Hnd & Hsub).
      split; [|split; [done|by constructor]].
      intros x. rewrite Hin, elem_of_cons. split; [tauto|].
      intros [[->|Hx] Hns]; [done|tauto].
    + assert (Ha : a ∉ seen).
      { intros Hin. apply isin_spec in Hin. congruence. }
      destruct (IH (a :: seen)) as (Hin & Hnd & Hsub).
      split; [|split; [|by constructor]].
      * intros x. rewrite !elem_of_cons, Hin, not_elem_of_cons.
        destruct (decide (x = a)) as [->|Hne]; [tauto|]. tauto.
      * constructor; [|done]. rewrite Hin, not_elem_of_cons. tauto.
Qed.

Lemma unique_membership (s : list string) (x : string) :
  x ∈ unique s ↔ x ∈ s.
Proof.
  destruct (unique_from_spec [] s) as (Hin & _).
  rewrite (Hin x), elem_of_nil. tauto.
Qed.

(** X1.  Lines 91-92 raise exactly when the tuple of the date picker has
    fewer than two dates (a range whose second end is not yet picked);
    anything after the second date is not looked at. *)
Theorem filtered_df_raises_iff_short_tuple df (date_range : list Z) sel :
  (filtered_df df date_range sel = None ↔ length date_range < 2)
  ∧ (∀ lo hi rest,
        filtered_df df (lo :: hi :: rest) sel = filtered_df df [lo; hi] sel).
Proof.
  split.
  - destruct date_range as [|lo [|hi rest]]; simpl.
    + split; [lia|done].
    + split; [lia|done].
    + split; [|lia]. intros Hnone.
      assert (Hpair : filtered_df df (lo :: hi :: rest) sel
                      = filtered_df df [lo; hi] sel) by done.
      rewrite Hpair, filtered_df_filter in Hnone. done.
  - done.
Qed.

(** X2.  On a frame with at least one row, the inputs the sidebar offers
    before the user touches it (the column's earliest and latest day, and
    every label that occurs) make lines 91-92 return the whole frame. *)
Theorem default_inputs_keep_all_rows df :
  df ≠ [] →
  ∃ date_range,
    default_date_range df = Some date_range
    ∧ filtered_df df date_range (default_category df) = Some df.
Proof.
  intros Hne.
  destruct (series_min (map date df)) as [lo|] eqn:Hlo;
    [|by destruct df].
  destruct (series_max (map date df)) as [hi|] eqn:Hhi;
    [|by destruct df].
  exists [dt_date lo; dt_date hi]. split.
  - unfold default_date_range. rewrite Hlo. simpl. by rewrite Hhi.
  - rewrite filtered_df_filter. f_equal. apply filter_all. intros r Hr.
    apply keeps_spec.
    assert (Hd : date r ∈ map date df).
    { apply list_elem_of_In, in_map, list_elem_of_In, Hr. }
    split; [split|].
    + apply dt_date_mono. by eapply series_min_le.
    + apply dt_date_mono. by eapply series_max_ge.
    + unfold default_category.
      apply unique_membership.
      apply list_elem_of_In, in_map, list_elem_of_In, Hr.
Qed.

(** An empty frame has no earliest day: the picker gets no [value]. *)
Lemma default_date_range_empty : default_date_range (F:=F) [] = None.
Proof. done. Qed.

Lemma filter_filter {A} (f g : A → bool) (l : list A) :
  List.filter g (List.filter f l) = List.filter (λ x, f x && g x) l.
Proof.
  induction l as [|a l IH]; simpl; [done|].
  destruct (f a) eqn:Ef; simpl; [|done].
  destruct (g a); simpl; by rewrite IH.
Qed.

Lemma filter_ext_in {A} (f g : A → bool) (l : list A) :
  (∀ x, x ∈ l → f x = g x) → List.filter f l = List.filter g l.
Proof.
  induction l as [|a l IH]; simpl; intros Hext; [done|].
  rewrite (Hext a) by constructor. rewrite IH; [done|].
  intros x Hx. apply Hext. by constructor.
Qed.

Lemma filter_sublist_mono {A} (f g : A → bool) (l : list A) :
  (∀ x, x ∈ l → f x = true → g x = true) →
  List.filter f l `sublist_of` List.filter g l.
Proof.
  induction l as [|a l IH]; simpl; intros Himp; [constructor|].
  assert (IH' : List.filter f l `sublist_of` List.filter g l).
  { apply IH. intros x Hx. apply Himp. by constructor. }
  destruct (f a) eqn:Ef.
  - rewrite (Himp a) by (done || constructor). by constructor.
  - destruct (g a); [by constructor|done].
Qed.

(** X4.  Widening the inputs never loses a row: with an earlier start, a
    later end and a larger selection, the rows kept before are among the
    rows kept now, in the same order. *)
Theorem filter_monotone df (lo hi lo' hi' : Z) sel sel' :
  (lo' ≤ lo)%Z → (hi ≤ hi')%Z → sel ⊆ sel' →
  ∃ out out',
    filtered_df df [lo; hi] sel = Some out
    ∧ filtered_df df [lo'; hi'] sel' = Some out'
    ∧ out `sublist_of` out'.
Proof.
  intros Hlo Hhi Hsel. eexists _, _.
  split; [apply filtered_df_filter|]. split; [apply filtered_df_filter|].
  apply filter_sublist_mono. intros r _ Hr.
  apply keeps_spec in Hr as [Hrange Hcat]. apply keeps_spec.
  split; [lia|]. by apply Hsel.
Qed.

(** X5.  Filtering a filtered frame again is one filter with the two
    ranges intersected and the labels common to both selections. *)
Theorem filter_compose_intersection df (a b c d : Z) sel sel' :
  filtered_df df [a; b] sel ≫= (λ out, filtered_df out [c; d] sel')
  = filtered_df df [Z.max a c; Z.min b d] (list_intersection sel sel').
Proof.
  rewrite !filtered_df_filter. simpl. rewrite filtered_df_filter, filter_filter.
  f_equal. apply filter_ext_in. intros r _.
  apply eq_true_iff_eq. rewrite andb_true_iff, !keeps_spec.
  rewrite list_elem_of_intersection. split.
  - intros [[? ?] [? ?]]. split; [lia|done].
  - intros [? [? ?]]. split; (split; [lia|done]).
Qed.
End SidebarFacts.

(** * The filter on the generated frame *)

Section ListWindowFacts.
Context {A : Type}.

(** A predicate that holds exactly at positions [a .. a + n - 1] filters a
    list down to that slice. *)
Lemma filter_window (P : A → bool) (l : list A) (a n : nat) :
  (∀ i x, l !! i = Some x → (P x = true ↔ a ≤ i < a + n)) →
  List.filter P l = take n (drop a l).
Proof.
  revert a n. induction l as [|x t IH]; intros a n Hpos.
  - by rewrite drop_nil, take_nil.
  - pose proof (Hpos 0 x eq_refl) as Hx.
    assert (Ht : ∀ a' n', (∀ i, a' ≤ i < a' + n' ↔ a ≤ S i < a + n) →
                          List.filter P t = take n' (drop a' t)).
    { intros a' n' Hshift. apply IH. intros i y Hy.
      rewrite Hshift. by apply (Hpos (S i)). }
    destruct a as [|a]; [destruct n as [|n]|]; simpl.
    + destruct (P x) eqn:E; [destruct Hx as [Hx _]; specialize (Hx eq_refl); lia|].
      rewrite (Ht 0 0); [done|]. intros i. lia.
    + rewrite (proj2 Hx) by lia. f_equal.
      rewrite (Ht 0 n); [done|]. intros i. lia.
    + destruct (P x) eqn:E; [destruct Hx as [Hx _]; specialize (Hx eq_refl); lia|].
      apply Ht. intros i. lia.
Qed.

(** Filtering keeps an order that holds between earlier and later
    positions. *)
Lemma filter_keeps_order (R : A → A → Prop) (f : A → bool) (l : list A) :
  (∀ i j x y, l !! i = Some x → l !! j = Some y → i < j → R x y) →
  ∀ i j x y, List.filter f l !! i = Some x → List.filter f l !! j = Some y →
             i < j → R x y.
Proof.
  induction l as [|a t IH]; intros Hord i j x y Hi Hj Hij; [done|].
  assert (Hord' : ∀ i j x y, t !! i = Some x → t !! j = Some y →
                             i < j → R x y).
  { intros i' j' x' y' Hx' Hy' Hlt. apply (Hord (S i') (S j')); [done..|lia]. }
  simpl in Hi, Hj. destruct (f a); [|by eapply IH].
  destruct j as [|j]; [lia|]. destruct i as [|i]; simpl in Hi, Hj.
  - injection Hi as <-.
    assert (Hy : y ∈ t).
    { apply list_elem_of_lookup_2 in Hj. apply filter_elem_of in Hj. tauto. }
    apply list_elem_of_lookup in Hy as [k Hk].
    apply (Hord 0 (S k)); [done..|lia].
  - eapply (IH Hord' i j); [done..|lia].
Qed.

Lemma filter_length_cons (f : A → bool) (a : A) (l : list A) :
  length (List.filter f (a :: l))
  = (if f a then 1 else 0) + length (List.filter f l).
Proof. simpl. by destruct (f a). Qed.
End ListWindowFacts.

(** Distinct days inside [lo .. hi] are at most [hi - lo + 1] many. *)
Lemma distinct_days_bound (days : list Z) (lo hi : Z) :
  NoDup days → (∀ d, d ∈ days → (lo ≤ d ≤ hi)%Z) →
  (Z.of_nat (length days) ≤ Z.max 0 (hi - lo + 1))%Z.
Proof.
  intros Hnd Hin.
  assert (Hsub : days ⊆+ seqZ lo (hi - lo + 1)).
  { apply NoDup_submseteq; [done|]. intros d Hd. apply elem_of_seqZ.
    specialize (Hin d Hd). lia. }
  apply submseteq_length in Hsub. rewrite length_seqZ in Hsub. lia.
Qed.

Section GeneratedFrameFacts.
Context {F : Type} {FO : Float64 F} {St : Type} {RNG : MTRand F St}.
Implicit Types (s g : St) (n i : nat) (df out : DataFrame F) (r : Row F)
  (sel : list string).

Hypothesis rk_interval_range :
  ∀ (max : Z) s, (0 ≤ max)%Z → (0 ≤ (rk_interval max s).1 ≤ max)%Z.

(** The facts about the frame of [generate_data()] that the filter needs. *)
Lemma generate_data_frame g :
  ∃ df s',
    generate_data g = Some (df, s')
    ∧ length df = 181
    ∧ (∀ i r, df !! i = Some r →
              idx r = i
              ∧ date r = (Timestamp 2023 1 1 + Z.of_nat i * NS_PER_DAY)%Z
              ∧ dt_date (date r) = (date_of 2023 1 1 + Z.of_nat i)%Z)
    ∧ Forall (λ r, category r ∈ LABELS) df.
Proof.
  destruct (generate_data_at_dates rk_interval_range 42 (Timestamp 2023 1 1)
              (Timestamp 2023 6 30) g) as (df & s' & Hgen & Hlen & Hrows);
    [done|].
  exists df, s'. split; [done|]. split; [rewrite Hlen; by vm_compute|].
  split.
  - intros i r Hr. destruct (Hrows i r Hr) as [Hidx Hdate].
    split; [done|]. split; [done|].
    by rewrite Hdate, dt_date_add_days, dt_date_Timestamp.
  - by eapply generate_data_at_labels.
Qed.

(** X6.  On the generated frame, a window of days inside 2023-01-01 to
    2023-06-30 with all three labels selected returns the contiguous slice
    of rows of those days: it skips the rows before the window and takes
    one row per day of it. *)
Theorem filter_window_is_slice g :
  ∃ df s',
    generate_data g = Some (df, s')
    ∧ ∀ lo hi : Z,
        (date_of 2023 1 1 ≤ lo)%Z → (lo ≤ hi)%Z → (hi ≤ date_of 2023 6 30)%Z →
        filtered_df df [lo; hi] ["类型1"; "类型2"; "类型3"]
        = Some (take (Z.to_nat (hi - lo + 1))
                     (drop (Z.to_nat (lo - date_of 2023 1 1)) df)).
Proof.
  destruct (generate_data_frame g) as (df & s' & Hgen & Hlen & Hrows & Hlab).
  exists df, s'. split; [done|]. intros lo hi Hlo Hle Hhi.
  rewrite filtered_df_filter. f_equal. apply filter_window.
  intros i r Hr. destruct (Hrows i r Hr) as (_ & _ & Hday).
  rewrite keeps_spec, Hday. rewrite Forall_forall in Hlab.
  assert (Hcat : category r ∈ LABELS).
  { apply Hlab. by eapply list_elem_of_lookup_2. }
  unfold LABELS in Hcat. split; [intros [? _]; lia|].
  intros Hi. split; [lia|done].
Qed.

(** X7.  On the generated frame, whatever the selection, a range
    [lo, hi] returns at most [hi - lo + 1] rows, and none when it is
    inverted: there is one row per day. *)
Theorem filter_at_most_one_row_per_day g :
  ∃ df s',
    generate_data g = Some (df, s')
    ∧ ∀ (lo hi : Z) sel out,
        filtered_df df [lo; hi] sel = Some out →
        (Z.of_nat (length out) ≤ Z.max 0 (hi - lo + 1))%Z.
Proof.
  destruct (generate_data_frame g) as (df & s' & Hgen & Hlen & Hrows & Hlab).
  exists df, s'. split; [done|]. intros lo hi sel out Hout.
  rewrite filtered_df_filter in Hout. injection Hout as <-.
  set (day := λ r : Row F, dt_date (date r)).
  set (out := List.filter (keeps lo hi sel) df).
  assert (Hnd : NoDup (day <$> df)).
  { apply NoDup_alt. intros i j d Hi Hj.
    rewrite list_lookup_fmap in Hi, Hj.
    destruct (df !! i) as [ri|] eqn:Hri; [|done].
    destruct (df !! j) as [rj|] eqn:Hrj; [|done].
    simpl in Hi, Hj. unfold day in Hi, Hj.
    destruct (Hrows i ri Hri) as (_ & _ & Hdi).
    destruct (Hrows j rj Hrj) as (_ & _ & Hdj).
    assert (dt_date (date ri) = dt_date (date rj)) by congruence. lia. }
  assert (Hnd' : NoDup (day <$> out)).
  { apply (sublist_NoDup _ _ Hnd), fmap_sublist, filter_sublist. }
  rewrite <- (length_fmap day out). apply distinct_days_bound; [done|].
  intros d Hd. apply list_elem_of_fmap in Hd as (r & -> & Hr).
  apply filter_elem_of in Hr as [_ Hr]. apply keeps_spec in Hr. tauto.
Qed.

(** X8.  On the generated frame, every row the filter returns still
    carries the label of its position in the full frame: looking that
    label up in the source gives the row back. *)
Theorem filtered_rows_keep_their_labels g :
  ∃ df s',
    generate_data g = Some (df, s')
    ∧ ∀ (date_range : list Z) sel out,
        filtered_df df date_range sel = Some out →
        ∀ r, r ∈ out → df !! idx r = Some r.
Proof.
  destruct (generate_data_frame g) as (df & s' & Hgen & Hlen & Hrows & Hlab).
  exists df, s'. split; [done|]. intros [|lo [|hi rest]] sel out Hout;
    [done..|].
  assert (Hpair : filtered_df df (lo :: hi :: rest) sel
                  = filtered_df df [lo; hi] sel) by done.
  rewrite Hpair, filtered_df_filter in Hout. injection Hout as <-.
  intros r Hr. apply filter_elem_of in Hr as [Hr _].
  apply list_elem_of_lookup in Hr as [i Hi].
  destruct (Hrows i r Hi) as (-> & _). done.
Qed.

(** X9.  On the generated frame, the rows the filter returns are in
    strictly increasing order of timestamp, whatever the inputs: the
    filtered view stays chronological, with no day repeated. *)
Theorem filtered_rows_chronological g :
  ∃ df s',
    generate_data g = Some (df, s')
    ∧ ∀ (date_range : list Z) sel out,
        filtered_df df date_range sel = Some out →
        ∀ i j ri rj, out !! i = Some ri → out !! j = Some rj → i < j →
                     (date ri < date rj)%Z.
Proof.
  destruct (generate_data_frame g) as (df & s' & Hgen & Hlen & Hrows & Hlab).
  exists df, s'. split; [done|]. intros [|lo [|hi rest]] sel out Hout;
    [done..|].
  assert (Hpair : filtered_df df (lo :: hi :: rest) sel
                  = filtered_df df [lo; hi] sel) by done.
  rewrite Hpair, filtered_df_filter in Hout. injection Hout as <-.
  apply filter_keeps_order. intros i j ri rj Hi Hj Hij.
  destruct (Hrows i ri Hi) as (_ & -> & _).
  destruct (Hrows j rj Hj) as (_ & -> & _).
  assert (0 < NS_PER_DAY)%Z by done. nia.
Qed.

Lemma keeps_one_label (lo hi : Z) r :
  category r ∈ LABELS →
  (if keeps lo hi LABELS r then 1 else 0)
  = (if keeps lo hi ["类型1"] r then 1 else 0)
    + (if keeps lo hi ["类型2"] r then 1 else 0)
    + (if keeps lo hi ["类型3"] r then 1 else 0).
Proof.
  unfold LABELS, keeps. rewrite !elem_of_cons, elem_of_nil.
  intros [-> | [-> | [-> | []]]];
    destruct ((lo <=? dt_date (date r))%Z && (dt_date (date r) <=? hi)%Z);
    reflexivity.
Qed.

(** X10.  On the generated frame, for any range of days, the rows kept
    with all three labels selected are as many as the rows kept with each
    label selected alone, added up: the per-label counts account for every
    row once. *)
Theorem per_label_counts_add_up g :
  ∃ df s',
    generate_data g = Some (df, s')
    ∧ ∀ lo hi : Z,
        ∃ out o1 o2 o3,
          filtered_df df [lo; hi] ["类型1"; "类型2"; "类型3"] = Some out
          ∧ filtered_df df [lo; hi] ["类型1"] = Some o1
          ∧ filtered_df df [lo; hi] ["类型2"] = Some o2
          ∧ filtered_df df [lo; hi] ["类型3"] = Some o3
          ∧ length out = length o1 + length o2 + length o3.
Proof.
  destruct (generate_data_frame g) as (df & s' & Hgen & Hlen & Hrows & Hlab).
  exists df, s'. split; [done|]. intros lo hi. eexists _, _, _, _.
  do 4 (split; [apply filtered_df_filter|]).
  clear Hgen Hlen Hrows. induction Hlab as [|r df Hr Hlab IH]; [done|].
  rewrite !filter_length_cons. fold LABELS in IH |- *.
  rewrite (keeps_one_label lo hi r Hr), IH. lia.
Qed.
End GeneratedFrameFacts.

Section HeatmapKeyFacts.
Context {F : Type} {FO : Float64 F} {St : Type} {RNG : MTRand F St}.
Implicit Types (s g : St) (i : nat) (df : DataFrame F) (r : Row F).

Hypothesis rk_interval_range :
  ∀ (max : Z) s, (0 ≤ max)%Z → (0 ≤ (rk_interval max s).1 ≤ max)%Z.

Lemma heatmap_keys_all_ok : forallb heatmap_keys_ok (seq 0 181) = true.
Proof. by vm_compute. Qed.

Lemma month_of_row_range (i : nat) : (1 ≤ month_of_row i ≤ 6)%Z.
Proof.
  unfold month_of_row.
  repeat match goal with |- context [if ?b then _ else _] => destruct b end;
    lia.
Qed.

(** The calendar fields of one generated row. *)
Lemma generated_row_fields g :
  ∃ df s',
    generate_data g = Some (df, s')
    ∧ length df = 181
    ∧ ∀ i r, df !! i = Some r →
        ord2ymd (dt_date (date r) + EPOCH_ORDINAL)
        = (2023%Z, month_of_row i, day_of_row i)
        ∧ (1 ≤ day_of_row i
           ≤ nth (Z.to_nat (month_of_row i)) DAYS_IN_MONTH 0%Z)%Z
        ∧ dt_day_name (date r) = nth ((i + 6) mod 7) DAY_NAMES "".
Proof.
  destruct (generate_data_frame rk_interval_range g)
    as (df & s' & Hgen & Hlen & Hrows & _).
  exists df, s'. split; [done|]. split; [done|]. intros i r Hr.
  assert (Hi : i < 181) by (rewrite <- Hlen; by eapply lookup_lt_Some).
  destruct (Hrows i r Hr) as (_ & Hdate & _).
  pose proof heatmap_keys_all_ok as Hall. rewrite forallb_forall in Hall.
  specialize (Hall i). rewrite in_seq in Hall.
  specialize (Hall (conj (Nat.le_0_l i) Hi)).
  unfold heatmap_keys_ok in Hall. rewrite Hdate.
  destruct (ord2ymd _) as [[y m] d].
  rewrite !andb_true_iff, !Z.leb_le, !Z.eqb_eq, String.eqb_eq in Hall.
  destruct Hall as (((((-> & ->) & ->) & ?) & ?) & Hname).
  split; [done|]. split; [lia|done].
Qed.

(** X11.  The keys the heatmap pivots on (lines 135-136).  Row [i] of the
    generated frame is the day [day_of_row i] of the month [month_of_row i]
    of 2023 (January for rows 0 to 30, February for 31 to 58, March for 59
    to 89, April for 90 to 119, May for 120 to 150, June for 151 to 180),
    and its day name is the one [i] days after a Sunday.  Over the frame
    the month takes exactly the values 1 to 6 and the day name exactly the
    seven names. *)
Theorem heatmap_keys_of_generated_rows g :
  ∃ df s',
    generate_data g = Some (df, s')
    ∧ (∀ i r, df !! i = Some r →
         ord2ymd (dt_date (date r) + EPOCH_ORDINAL)
         = (2023%Z, month_of_row i, day_of_row i)
         ∧ dt_month (date r) = month_of_row i
         ∧ (1 ≤ day_of_row i
            ≤ nth (Z.to_nat (month_of_row i)) DAYS_IN_MONTH 0%Z)%Z
         ∧ dt_day_name (date r) = nth ((i + 6) mod 7) DAY_NAMES "")
    ∧ (∀ m : Z, (1 ≤ m ≤ 6)%Z
                ↔ ∃ i r, df !! i = Some r ∧ dt_month (date r) = m)
    ∧ (∀ name : string,
         name ∈ DAY_NAMES
         ↔ ∃ i r, df !! i = Some r ∧ dt_day_name (date r) = name).
Proof.
  destruct (generated_row_fields g) as (df & s' & Hgen & Hlen & Hkeys).
  assert (Hmonth : ∀ i r, df !! i = Some r → dt_month (date r) = month_of_row i).
  { intros i r Hr. destruct (Hkeys i r Hr) as (Hymd & _).
    unfold dt_month. by rewrite Hymd. }
  assert (Hrow : ∀ k, k < 181 → ∃ r, df !! k = Some r).
  { intros k Hk. apply lookup_lt_is_Some_2. lia. }
  exists df, s'. split; [done|]. split; [|split].
  - intros i r Hr. destruct (Hkeys i r Hr) as (Hymd & Hday & Hname).
    split; [done|]. split; [by apply Hmonth|]. done.
  - intros m. split.
    + intros Hm.
      assert (Hcases : (m = 1 ∨ m = 2 ∨ m = 3 ∨ m = 4 ∨ m = 5 ∨ m = 6)%Z)
        by lia.
      destruct Hcases as [->|[->|[->|[->|[->| ->]]]]].
      * destruct (Hrow 0) as [r Hr]; [lia|]. exists 0, r.
        split; [done|]. by rewrite (Hmonth 0 r Hr).
      * destruct (Hrow 31) as [r Hr]; [lia|]. exists 31, r.
        split; [done|]. by rewrite (Hmonth 31 r Hr).
      * destruct (Hrow 59) as [r Hr]; [lia|]. exists 59, r.
        split; [done|]. by rewrite (Hmonth 59 r Hr).
      * destruct (Hrow 90) as [r Hr]; [lia|]. exists 90, r.
        split; [done|]. by rewrite (Hmonth 90 r Hr).
      * destruct (Hrow 120) as [r Hr]; [lia|]. exists 120, r.
        split; [done|]. by rewrite (Hmonth 120 r Hr).
      * destruct (Hrow 151) as [r Hr]; [lia|]. exists 151, r.
        split; [done|]. by rewrite (Hmonth 151 r Hr).
    + intros (i & r & Hr & <-). rewrite (Hmonth i r Hr).
      apply month_of_row_range.
  - intros name. split.
    + unfold DAY_NAMES. rewrite !elem_of_cons, elem_of_nil.
      assert (Hat : ∀ k, k < 181 →
                ∃ i r, df !! i = Some r
                       ∧ dt_day_name (date r)
                         = nth ((k + 6) mod 7) DAY_NAMES "").
      { intros k Hk. destruct (Hrow k Hk) as [r Hr]. exists k, r.
        split; [done|]. by destruct (Hkeys k r Hr) as (_ & _ & ->). }
      intros [->|[->|[->|[->|[->|[->|[->|[]]]]]]]].
      * apply (Hat 1). lia.
      * apply (Hat 2). lia.
      * apply (Hat 3). lia.
      * apply (Hat 4). lia.
      * apply (Hat 5). lia.
      * apply (Hat 6). lia.
      * apply (Hat 0). lia.
    + intros (i & r & Hr & <-). destruct (Hkeys i r Hr) as (_ & _ & ->).
      apply list_elem_of_In, nth_In.
      pose proof (Nat.mod_upper_bound (i + 6) 7). simpl. lia.
Qed.
End HeatmapKeyFacts.

(** * Running lines 91-92 again *)

Section RerunFacts.
Context {F : Type}.
Implicit Types (st : script_state F) (df : DataFrame F).

(** The state lines 91-92 leave behind: two new objects, two bindings. *)
Lemma exec_filter_result st (l : positive) df (lo hi : Z)
    (sel : list string) :
  env st !! "df" = Some l →
  store st !! l = Some (OFrame df) →
  ∃ (l1 l2 : positive) (m : list bool),
    exec_filter [lo; hi] sel st
    = Some (mkState
              (<[l2 := OFrame (List.filter (keeps lo hi sel) df)]>
                 (<[l1 := OMask m]> (store st)))
              (<["filtered_df" := l2]> (<["mask" := l1]> (env st))))
    ∧ l1 ≠ l ∧ l2 ≠ l ∧ l2 ≠ l1.
Proof.
  intros Hx Hl.
  destruct (exec_line91_spec st l df lo hi Hx Hl) as (l1 & H91 & Hl1).
  set (m := map (λ r, (lo <=? dt_date (date r))%Z
                      && (dt_date (date r) <=? hi)%Z) df) in *.
  set (st1 := mkState (<[l1 := OMask m]> (store st))
                      (<["mask" := l1]> (env st))) in *.
  assert (Hne : l1 ≠ l) by (intros ->; congruence).
  set (l2 := fresh (dom (store st1))).
  assert (Hl2 : store st1 !! l2 = None) by apply not_elem_of_dom, is_fresh.
  simpl in Hl2. apply lookup_insert_None in Hl2 as [Hl2 Hne2].
  exists l1, l2, m. split; [|split; [done|split; [|done]]].
  - unfold exec_filter. rewrite H91. simpl. unfold exec_line92.
    rewrite (read_frame_bound st1 l df); simpl;
      [|by rewrite lookup_insert_ne|by rewrite lookup_insert_ne].
    unfold read_mask. simpl. rewrite lookup_insert_eq. simpl.
    rewrite lookup_insert_eq. simpl. fold l2. do 3 f_equal.
    unfold m, col_category, isin. rewrite map_map, series_and_map.
    f_equal. apply getitem_mask_map.
  - intros ->. congruence.
Qed.

(** X14.  Running lines 91-92 a second time with other inputs rebinds
    [filtered_df] to the filter of the full frame [df] under the new
    inputs, not to a filter of the previous result; names other than
    [mask] and [filtered_df] keep their bindings through both runs. *)
Theorem rerun_filters_the_source_again st (l : positive) df
    (a b c d : Z) (sel sel' : list string) :
  env st !! "df" = Some l →
  store st !! l = Some (OFrame df) →
  ∃ st1 st2 l2,
    exec_filter [a; b] sel st = Some st1
    ∧ exec_filter [c; d] sel' st1 = Some st2
    ∧ env st2 !! "filtered_df" = Some l2
    ∧ store st2 !! l2 = OFrame <$> filtered_df df [c; d] sel'
    ∧ ∀ x : string, x ≠ "mask" → x ≠ "filtered_df" →
                    env st2 !! x = env st !! x.
Proof.
  intros Hx Hl.
  destruct (exec_filter_result st l df a b sel Hx Hl)
    as (l1 & l2 & m & Hrun1 & Hl1 & Hl2 & _).
  set (st1 := mkState
                (<[l2 := OFrame (List.filter (keeps a b sel) df)]>
                   (<[l1 := OMask m]> (store st)))
                (<["filtered_df" := l2]> (<["mask" := l1]> (env st)))) in *.
  assert (Hx1 : env st1 !! "df" = Some l) by (simpl; by rewrite !lookup_insert_ne).
  assert (Hs1 : store st1 !! l = Some (OFrame df))
    by (simpl; by rewrite !lookup_insert_ne).
  destruct (exec_filter_result st1 l df c d sel' Hx1 Hs1)
    as (l3 & l4 & m' & Hrun2 & _).
  eexists st1, _, l4. split; [done|]. split; [exact Hrun2|].
  split; [simpl; apply lookup_insert_eq|]. split.
  - rewrite filtered_df_filter. simpl. by rewrite lookup_insert_eq.
  - intros x Hm Hf. simpl. by rewrite !lookup_insert_ne.
Qed.
End RerunFacts.

(** * The sidebar inputs on the generated frame *)

Lemma fold_min_in (t : list Z) (x : Z) : fold_left Z.min t x ∈ x :: t.
Proof.
  revert x. induction t as [|a t IH]; intros x; simpl; [constructor|].
  specialize (IH (Z.min x a)). rewrite !elem_of_cons in IH |- *.
  destruct IH as [-> | Hin]; [|by right; right].
  destruct (Z.min_spec x a) as [[_ ->] | [_ ->]]; [by left|by right; left].
Qed.

Lemma fold_max_in (t : list Z) (x : Z) : fold_left Z.max t x ∈ x :: t.
Proof.
  revert x. induction t as [|a t IH]; intros x; simpl; [constructor|].
  specialize (IH (Z.max x a)). rewrite !elem_of_cons in IH |- *.
  destruct IH as [-> | Hin]; [|by right; right].
  destruct (Z.max_spec x a) as [[_ ->] | [_ ->]]; [by right; left|by left].
Qed.

Lemma series_min_in (s : list Z) (m : Z) : series_min s = Some m → m ∈ s.
Proof. destruct s; simpl; [done|]. intros [= <-]. apply fold_min_in. Qed.

Lemma series_max_in (s : list Z) (m : Z) : series_max s = Some m → m ∈ s.
Proof. destruct s; simpl; [done|]. intros [= <-]. apply fold_max_in. Qed.

Section SidebarOnGeneratedFrame.
Context {F : Type} {FO : Float64 F} {St : Type} {RNG : MTRand F St}.
Implicit Types (s g : St) (i : nat) (df : DataFrame F) (r : Row F).

Hypothesis rk_interval_range :
  ∀ (max : Z) s, (0 ≤ max)%Z → (0 ≤ (rk_interval max s).1 ≤ max)%Z.

(** X15.  On the generated frame the date picker opens on the whole
    range: its first value is the pair 2023-01-01, 2023-06-30. *)
Theorem default_date_range_of_generated_frame g :
  ∃ df s',
    generate_data g = Some (df, s')
    ∧ default_date_range df
      = Some [date_of 2023 1 1; date_of 2023 6 30].
Proof.
  destruct (generate_data_frame rk_interval_range g)
    as (df & s' & Hgen & Hlen & Hrows & _).
  exists df, s'. split; [done|].
  assert (Hdates : ∀ t, t ∈ map date df →
            ∃ i, i < 181
                 ∧ t = (Timestamp 2023 1 1 + Z.of_nat i * NS_PER_DAY)%Z).
  { intros t Ht. apply list_elem_of_In, in_map_iff in Ht as (r & <- & Hr).
    apply list_elem_of_In, list_elem_of_lookup in Hr as [i Hi].
    exists i. split; [rewrite <- Hlen; by eapply lookup_lt_Some|].
    by destruct (Hrows i r Hi) as (_ & ? & _). }
  assert (Hat : ∀ i, i < 181 →
            (Timestamp 2023 1 1 + Z.of_nat i * NS_PER_DAY)%Z ∈ map date df).
  { intros i Hi. destruct (lookup_lt_is_Some_2 df i) as [r Hr]; [lia|].
    destruct (Hrows i r Hr) as (_ & <- & _).
    apply list_elem_of_In, in_map, list_elem_of_In.
    by eapply list_elem_of_lookup_2. }
  assert (Hns : (0 < NS_PER_DAY)%Z) by done.
  destruct (series_min (map date df)) as [lo|] eqn:Hlo;
    [|destruct df; [done|discriminate]].
  destruct (series_max (map date df)) as [hi|] eqn:Hhi;
    [|destruct df; [done|discriminate]].
  assert (lo = Timestamp 2023 1 1) as ->.
  { destruct (Hdates lo (series_min_in _ _ Hlo)) as (i & Hi & ->).
    pose proof (series_min_le _ _ _ Hlo (Hat 0 ltac:(lia))). nia. }
  assert (hi = (Timestamp 2023 1 1 + 180 * NS_PER_DAY)%Z) as ->.
  { destruct (Hdates hi (series_max_in _ _ Hhi)) as (i & Hi & ->).
    pose proof (series_max_ge _ _ _ Hhi (Hat 180 ltac:(lia))). nia. }
  unfold default_date_range. rewrite Hlo. simpl. rewrite Hhi. simpl.
  by rewrite dt_date_add_days, !dt_date_Timestamp, last_day_offset.
Qed.

(** X16.  On the generated frame the multiselect offers between one and
    three options, each one of the three labels of line 59 and none
    twice. *)
Theorem category_options_of_generated_frame g :
  ∃ df s',
    generate_data g = Some (df, s')
    ∧ 1 ≤ length (default_category df) ≤ 3
    ∧ NoDup (default_category df)
    ∧ ∀ x, x ∈ default_category df →
           x = "类型1" ∨ x = "类型2" ∨ x = "类型3".
Proof.
  destruct (generate_data_frame rk_interval_range g)
    as (df & s' & Hgen & Hlen & _ & Hlab).
  exists df, s'. split; [done|].
  destruct (unique_from_spec [] (col_category df)) as (_ & Hnd & _).
  fold (unique (col_category df)) in Hnd.
  assert (Hin : ∀ x, x ∈ default_category df → x ∈ LABELS).
  { intros x Hx. unfold default_category in Hx.
    apply (proj1 (unique_membership _ _)) in Hx. unfold col_category in Hx.
    apply list_elem_of_In, in_map_iff in Hx as (r & <- & Hr).
    rewrite Forall_forall in Hlab. by apply Hlab, list_elem_of_In. }
  split; [split|split; [done|]].
  - destruct df as [|r df]; [done|]. unfold default_category, unique.
    simpl. lia.
  - apply (submseteq_length _ LABELS), NoDup_submseteq; done.
  - intros x Hx. specialize (Hin x Hx). unfold LABELS in Hin.
    rewrite !elem_of_cons, elem_of_nil in Hin. tauto.
Qed.
End SidebarOnGeneratedFrame.

(** The stand-in generator meets the contract of the bounded draw. *)
Lemma lcg_range {F : Type} {FO : Float64 F} (max s : Z) :
  (0 ≤ max)%Z →
  (0 ≤ (rk_interval (MTRand:=Lcg.lcg (F:=F)) max s).1 ≤ max)%Z.
Proof.
  intros Hmax. simpl.
  pose proof (Z.mod_pos_bound (Lcg.next s) (max + 1)). lia.
Qed.

(** * The model at work on concrete inputs *)

Section Examples.
Local Open Scope Z_scope.

Example date_of_2023_01_01 : date_of 2023 1 1 = 19358.
Proof. reflexivity. Qed.

Example date_of_2023_06_30 : date_of 2023 6 30 = 19538.
Proof. reflexivity. Qed.

Example timestamp_2023_01_01 : Timestamp 2023 1 1 = 1672531200000000000.
Proof. reflexivity. Qed.

Example date_range_fixed_length :
  length (date_range (Timestamp 2023 1 1) (Timestamp 2023 6 30)) = 181%nat.
Proof. by vm_compute. Qed.

Example date_range_inverted :
  date_range (Timestamp 2023 3 1) (Timestamp 2023 2 1) = [].
Proof. by vm_compute. Qed.

Example linspace_five_points : linspace (F:=Z) 0 100 5 = [0; 25; 50; 75; 100].
Proof. by vm_compute. Qed.

Example filter_keeps_labels_and_order :
  filtered_df three_rows [date_of 2023 1 2; date_of 2023 1 3]
              ["类型1"; "类型2"]
  = Some [ mkRow 1%nat (Timestamp 2023 1 2 + 50000000000000) 3 4 "类型2";
           mkRow 2%nat (Timestamp 2023 1 3) 5 6 "类型1" ].
Proof. by vm_compute. Qed.

(** The inverted range of the spec's test list. *)
Example filter_inverted_2023_03_01_2023_02_01 :
  filtered_df three_rows [date_of 2023 3 1; date_of 2023 2 1]
              ["类型1"; "类型2"; "类型3"]
  = Some [].
Proof. by vm_compute. Qed.

(** The generator on the integer stand-ins: three days from seed 42. *)
Example generate_three_days :
  fst <$> generate_data_at (F:=Z) (RNG:=Lcg.lcg) 42 (Timestamp 2023 1 1)
                           (Timestamp 2023 1 3) 7
  = Some [ mkRow 0%nat 1672531200000000000 105 (-6) "类型3";
           mkRow 1%nat 1672617600000000000 385 (-6) "类型1";
           mkRow 2%nat 1672704000000000000 715 (-9) "类型3" ].
Proof. by vm_compute. Qed.

Example generate_data_runs :
  length <$> (fst <$> generate_data (F:=Z) (RNG:=Lcg.lcg) 7) = Some 181%nat.
Proof. by vm_compute. Qed.

(** A seed outside [0 .. 2^32 - 1] makes [np.random.seed] raise. *)
Example generate_bad_seed :
  generate_data_at (F:=Z) (RNG:=Lcg.lcg) (-1) (Timestamp 2023 1 1)
                   (Timestamp 2023 1 3) 7 = None.
Proof. reflexivity. Qed.
(** The two arguments of the sine at row 3, in float64. *)
Example linspace_row_3_float64 :
  linspace (FO:=binary64_series) (of_int 0)
           (fmul (of_int 4) fpi) 181 !! 3%nat
  = Some 0x1.acee9f37bebd6p-3%float.
Proof. by vm_compute. Qed.

Example spec_arg_row_3_float64 :
  spec_curve_arg (FO:=binary64_series) 3 181
  = 0x1.acee9f37bebd5p-3%float.
Proof. by vm_compute. Qed.

(** An empty request draws nothing and raises nothing, whatever the bounds
    or the population. *)
Example randint_empty_request :
  randint (RNG:=Lcg.lcg (F:=Z)) 0 0 0 7 = Some ([], 7)
  ∧ choice (RNG:=Lcg.lcg (F:=Z)) ([] : list string) 0 7 = Some ([], 7)
  ∧ choice (RNG:=Lcg.lcg (F:=Z)) ([] : list string) 1 7 = None.
Proof. by vm_compute. Qed.
End Examples.

(** * The theorems applied at concrete inputs *)

Section Witnesses.

Lemma filter_empty_selection_or_inverted_range_witness :
  filtered_df three_rows [date_of 2023 3 1; date_of 2023 2 1] ["类型1"]
  = Some [].
Proof.
  apply (filter_empty_selection_or_inverted_range three_rows
           (date_of 2023 3 1) (date_of 2023 2 1) ["类型1"]).
  right. vm_compute. reflexivity.
Defined.

Lemma filter_does_not_mutate_source_witness :
  ∃ st' l',
    exec_filter [date_of 2023 1 2; date_of 2023 1 3] ["类型1"] st_three
    = Some st'
    ∧ env st' !! "df" = Some 1%positive
    ∧ store st' !! 1%positive = Some (OFrame three_rows)
    ∧ store st_three ⊆ store st'
    ∧ env st' !! "filtered_df" = Some l'
    ∧ l' ≠ 1%positive
    ∧ store st_three !! l' = None
    ∧ store st' !! l'
      = OFrame <$> filtered_df three_rows
                     [date_of 2023 1 2; date_of 2023 1 3] ["类型1"].
Proof.
  apply (filter_does_not_mutate_source st_three 1%positive three_rows
           (date_of 2023 1 2) (date_of 2023 1 3) ["类型1"]);
    vm_compute; reflexivity.
Defined.

Lemma generate_data_deterministic_witness :
  ∃ (df : DataFrame Z) (s' : Z),
    ∀ g, generate_data_at (RNG:=Lcg.lcg) 42 (Timestamp 2023 1 1)
                          (Timestamp 2023 1 3) g
         = Some (df, s').
Proof.
  apply (generate_data_deterministic (F:=Z) (RNG:=Lcg.lcg) lcg_range 42
           (Timestamp 2023 1 1) (Timestamp 2023 1 3)).
  vm_compute. split; [discriminate | reflexivity].
Defined.


Lemma valueB_formula_and_draw_order_witness :
  ∃ (df : DataFrame Z) (noiseA noiseB : list Z) (cats : list string)
    (idxs : list Z) (s1 s2 s3 : Z),
    normal (RNG:=Lcg.lcg) 0%Z 5%Z 181 42%Z = Some (noiseA, s1)
    ∧ normal (RNG:=Lcg.lcg) 0%Z 3%Z 181 s1 = Some (noiseB, s2)
    ∧ choice (RNG:=Lcg.lcg (F:=Z)) LABELS 181 s2 = Some (cats, s3)
    ∧ randint (RNG:=Lcg.lcg (F:=Z)) 0 3 181 s2 = Some (idxs, s3)
    ∧ generate_data (RNG:=Lcg.lcg) 7%Z = Some (df, s3)
    ∧ length df = 181 ∧ length noiseA = 181 ∧ length noiseB = 181
    ∧ length cats = 181 ∧ length idxs = 181
    ∧ s1 = after_gauss (RNG:=Lcg.lcg (F:=Z)) 181 42%Z
    ∧ s2 = after_gauss (RNG:=Lcg.lcg (F:=Z)) 181 s1
    ∧ s3 = after_interval (RNG:=Lcg.lcg (F:=Z)) 2 181 s2
    ∧ ∀ i r, df !! i = Some r →
        ∃ (eA eB k x : Z),
          noiseA !! i = Some eA
          ∧ noiseB !! i = Some eB
          ∧ idxs !! i = Some k
          ∧ cats !! i = Some (category r)
          ∧ eA = (0 + 5 * gauss_at (RNG:=Lcg.lcg) 42%Z i)%Z
          ∧ eB = (0 + 3 * gauss_at (RNG:=Lcg.lcg) 42%Z (181 + i))%Z
          ∧ k = interval_at (RNG:=Lcg.lcg (F:=Z)) 2 s2 i
          ∧ LABELS !! Z.to_nat k = Some (category r)
          ∧ linspace (F:=Z) 0%Z (4 * 3)%Z 181 !! i = Some x
          ∧ valueA r = (x * 50 + 100 + eA)%Z
          ∧ valueB r = (8 / 10 ^ 1 * valueA r + eB)%Z
          ∧ valueB r = (valueA r * (8 / 10 ^ 1) + eB)%Z.
Proof.
  apply (valueB_formula_and_draw_order (F:=Z) (FO:=Z_arith) (RNG:=Lcg.lcg)
           lcg_range Z.mul_comm 7%Z).
Defined.

Lemma generated_one_row_per_day_witness :
  ∃ (df : DataFrame Z) (s' : Z),
    generate_data (RNG:=Lcg.lcg) 7%Z = Some (df, s')
    ∧ Z.of_nat (length df)
      = (delta_days (Timestamp 2023 1 1) (Timestamp 2023 6 30) + 1)%Z
    ∧ length df = 181
    ∧ (∀ i r, df !! i = Some r →
              dt_date (date r) = (date_of 2023 1 1 + Z.of_nat i)%Z)
    ∧ (∀ d : Z, (date_of 2023 1 1 ≤ d ≤ date_of 2023 6 30)%Z →
         ∃ i r, df !! i = Some r ∧ dt_date (date r) = d
                ∧ ∀ j r', df !! j = Some r' →
                          dt_date (date r') = d → j = i)
    ∧ (∀ i j ri rj, df !! i = Some ri → df !! j = Some rj →
                    i < j → (date ri < date rj)%Z).
Proof.
  apply (generated_one_row_per_day (F:=Z) (RNG:=Lcg.lcg) lcg_range 7%Z).
Defined.

Lemma generated_category_closed_witness :
  category (mkRow (F:=Z) 0 1672531200000000000%Z 105%Z (-6)%Z "类型3") = "类型1"
  ∨ category (mkRow (F:=Z) 0 1672531200000000000%Z 105%Z (-6)%Z "类型3") = "类型2"
  ∨ category (mkRow (F:=Z) 0 1672531200000000000%Z 105%Z (-6)%Z "类型3") = "类型3".
Proof.
  eapply (generated_category_closed (F:=Z) (RNG:=Lcg.lcg) lcg_range 42
            (Timestamp 2023 1 1) (Timestamp 2023 1 3) 7%Z).
  - vm_compute. reflexivity.
  - apply list_elem_of_here.
Defined.

Lemma filter_full_range_is_identity_witness :
  ∃ (df : DataFrame Z) (s' : Z),
    generate_data (RNG:=Lcg.lcg) 7%Z = Some (df, s')
    ∧ length df = 181
    ∧ filtered_df df [date_of 2023 1 1; date_of 2023 6 30]
                  ["类型1"; "类型2"; "类型3"]
      = Some df.
Proof.
  apply (filter_full_range_is_identity (F:=Z) (RNG:=Lcg.lcg) lcg_range
           7%Z).
Defined.
End Witnesses.

(** * The further theorems applied at concrete inputs *)

Section FurtherExamples.
Local Open Scope Z_scope.

Example unique_first_appearance :
  unique ["类型2"; "类型1"; "类型2"; "类型3"; "类型1"]
  = ["类型2"; "类型1"; "类型3"].
Proof. reflexivity. Qed.

Example default_inputs_three_rows :
  default_date_range three_rows = Some [date_of 2023 1 1; date_of 2023 1 3]
  ∧ default_category three_rows = ["类型1"; "类型2"].
Proof. by vm_compute. Qed.

Example ord2ymd_leap_day : ord2ymd (ymd2ord 2024 2 29) = (2024, 2, 29).
Proof. reflexivity. Qed.

Example day_name_2023_01_01 : dt_day_name (Timestamp 2023 1 1) = "Sunday".
Proof. reflexivity. Qed.

Example month_2023_06_30 : dt_month (Timestamp 2023 6 30) = 6.
Proof. reflexivity. Qed.
End FurtherExamples.

Section FurtherWitnesses.

Lemma default_inputs_keep_all_rows_witness :
  ∃ date_range,
    default_date_range three_rows = Some date_range
    ∧ filtered_df three_rows date_range (default_category three_rows)
      = Some three_rows.
Proof.
  apply (default_inputs_keep_all_rows three_rows). discriminate.
Defined.

Lemma filter_monotone_witness :
  ∃ out out',
    filtered_df three_rows [date_of 2023 1 2; date_of 2023 1 2] ["类型2"]
    = Some out
    ∧ filtered_df three_rows [date_of 2023 1 1; date_of 2023 1 3]
                  ["类型1"; "类型2"]
      = Some out'
    ∧ out `sublist_of` out'.
Proof.
  apply (filter_monotone three_rows (date_of 2023 1 2) (date_of 2023 1 2)
           (date_of 2023 1 1) (date_of 2023 1 3) ["类型2"]
           ["类型1"; "类型2"]).
  - vm_compute. discriminate.
  - vm_compute. discriminate.
  - intros x Hx. apply list_elem_of_singleton in Hx as ->.
    apply list_elem_of_further, list_elem_of_here.
Defined.

Lemma filter_window_is_slice_witness :
  ∃ (df : DataFrame Z) (s' : Z),
    generate_data (RNG:=Lcg.lcg) 7%Z = Some (df, s')
    ∧ filtered_df df [date_of 2023 1 1; date_of 2023 1 7]
                  ["类型1"; "类型2"; "类型3"]
      = Some (take (Z.to_nat (date_of 2023 1 7 - date_of 2023 1 1 + 1))
                   (drop (Z.to_nat (date_of 2023 1 1 - date_of 2023 1 1))
                         df)).
Proof.
  destruct (filter_window_is_slice (F:=Z) (RNG:=Lcg.lcg) lcg_range 7%Z)
    as (df & s' & Hgen & Hslice).
  exists df, s'. split; [exact Hgen|].
  apply Hslice; vm_compute; discriminate.
Defined.

Lemma filter_at_most_one_row_per_day_witness :
  ∃ (df : DataFrame Z) (s' : Z) (out : DataFrame Z),
    generate_data (RNG:=Lcg.lcg) 7%Z = Some (df, s')
    ∧ filtered_df df [date_of 2023 1 1; date_of 2023 1 7] ["类型1"]
      = Some out
    ∧ (Z.of_nat (length out)
       ≤ Z.max 0 (date_of 2023 1 7 - date_of 2023 1 1 + 1))%Z.
Proof.
  destruct (filter_at_most_one_row_per_day (F:=Z) (RNG:=Lcg.lcg) lcg_range
              7%Z) as (df & s' & Hgen & Hbound).
  eexists df, s', _. split; [exact Hgen|].
  split; [apply filtered_df_filter|].
  eapply Hbound. apply filtered_df_filter.
Defined.

Lemma filtered_rows_keep_their_labels_witness :
  ∃ (df : DataFrame Z) (s' : Z) (out : DataFrame Z),
    generate_data (RNG:=Lcg.lcg) 7%Z = Some (df, s')
    ∧ filtered_df df [date_of 2023 1 1; date_of 2023 1 7] ["类型1"]
      = Some out
    ∧ ∀ r, r ∈ out → df !! idx r = Some r.
Proof.
  destruct (filtered_rows_keep_their_labels (F:=Z) (RNG:=Lcg.lcg) lcg_range
              7%Z) as (df & s' & Hgen & Hlabels).
  eexists df, s', _. split; [exact Hgen|].
  split; [apply filtered_df_filter|].
  eapply Hlabels. apply filtered_df_filter.
Defined.

Lemma filtered_rows_chronological_witness :
  ∃ (df : DataFrame Z) (s' : Z) (out : DataFrame Z),
    generate_data (RNG:=Lcg.lcg) 7%Z = Some (df, s')
    ∧ filtered_df df [date_of 2023 1 1; date_of 2023 1 7] ["类型1"]
      = Some out
    ∧ ∀ i j ri rj, out !! i = Some ri → out !! j = Some rj → i < j →
                   (date ri < date rj)%Z.
Proof.
  destruct (filtered_rows_chronological (F:=Z) (RNG:=Lcg.lcg) lcg_range
              7%Z) as (df & s' & Hgen & Hsorted).
  eexists df, s', _. split; [exact Hgen|].
  split; [apply filtered_df_filter|].
  eapply Hsorted. apply filtered_df_filter.
Defined.

Lemma per_label_counts_add_up_witness :
  ∃ (df : DataFrame Z) (s' : Z),
    generate_data (RNG:=Lcg.lcg) 7%Z = Some (df, s')
    ∧ ∀ lo hi : Z,
        ∃ out o1 o2 o3,
          filtered_df df [lo; hi] ["类型1"; "类型2"; "类型3"] = Some out
          ∧ filtered_df df [lo; hi] ["类型1"] = Some o1
          ∧ filtered_df df [lo; hi] ["类型2"] = Some o2
          ∧ filtered_df df [lo; hi] ["类型3"] = Some o3
          ∧ length out = length o1 + length o2 + length o3.
Proof.
  apply (per_label_counts_add_up (F:=Z) (RNG:=Lcg.lcg) lcg_range 7%Z).
Defined.

Lemma heatmap_keys_of_generated_rows_witness :
  ∃ (df : DataFrame Z) (s' : Z),
    generate_data (RNG:=Lcg.lcg) 7%Z = Some (df, s')
    ∧ (∀ i r, df !! i = Some r →
         ord2ymd (dt_date (date r) + EPOCH_ORDINAL)
         = (2023%Z, month_of_row i, day_of_row i)
         ∧ dt_month (date r) = month_of_row i
         ∧ (1 ≤ day_of_row i
            ≤ nth (Z.to_nat (month_of_row i)) DAYS_IN_MONTH 0%Z)%Z
         ∧ dt_day_name (date r) = nth ((i + 6) mod 7) DAY_NAMES "")
    ∧ (∀ m : Z, (1 ≤ m ≤ 6)%Z
                ↔ ∃ i r, df !! i = Some r ∧ dt_month (date r) = m)
    ∧ (∀ name : string,
         name ∈ DAY_NAMES
         ↔ ∃ i r, df !! i = Some r ∧ dt_day_name (date r) = name).
Proof.
  apply (heatmap_keys_of_generated_rows (F:=Z) (RNG:=Lcg.lcg) lcg_range 7%Z).
Defined.

Lemma rerun_filters_the_source_again_witness :
  ∃ st1 st2 l2,
    exec_filter [date_of 2023 1 1; date_of 2023 1 1] ["类型1"] st_three
    = Some st1
    ∧ exec_filter [date_of 2023 1 2; date_of 2023 1 3] ["类型2"] st1
      = Some st2
    ∧ env st2 !! "filtered_df" = Some l2
    ∧ store st2 !! l2
      = OFrame <$> filtered_df three_rows
                     [date_of 2023 1 2; date_of 2023 1 3] ["类型2"]
    ∧ ∀ x : string, x ≠ "mask" → x ≠ "filtered_df" →
                    env st2 !! x = env st_three !! x.
Proof.
  apply (rerun_filters_the_source_again st_three 1%positive three_rows
           (date_of 2023 1 1) (date_of 2023 1 1) (date_of 2023 1 2)
           (date_of 2023 1 3) ["类型1"] ["类型2"]);
    vm_compute; reflexivity.
Defined.

Lemma default_date_range_of_generated_frame_witness :
  ∃ (df : DataFrame Z) (s' : Z),
    generate_data (RNG:=Lcg.lcg) 7%Z = Some (df, s')
    ∧ default_date_range df
      = Some [date_of 2023 1 1; date_of 2023 6 30].
Proof.
  apply (default_date_range_of_generated_frame (F:=Z) (RNG:=Lcg.lcg)
           lcg_range 7%Z).
Defined.

Lemma category_options_of_generated_frame_witness :
  ∃ (df : DataFrame Z) (s' : Z),
    generate_data (RNG:=Lcg.lcg) 7%Z = Some (df, s')
    ∧ 1 ≤ length (default_category df) ≤ 3
    ∧ NoDup (default_category df)
    ∧ ∀ x, x ∈ default_category df →
           x = "类型1" ∨ x = "类型2" ∨ x = "类型3".
Proof.
  apply (category_options_of_generated_frame (F:=Z) (RNG:=Lcg.lcg)
           lcg_range 7%Z).
Defined.
End FurtherWitnesses.
